(** * pymkm.io.data_registry: discovery and loading of default data files

    A shallow embedding of [src/pymkm/io/data_registry.py].  The four public
    functions of the module only read the file system and the import system,
    so the embedding passes an explicit, immutable [World] (a directory tree,
    the working directory, the module's own [__file__] and the two
    importlib entry points) to every function and returns a [result]:
    either the value the Python function returns or the exception it raises.

    Paths, names and messages are [string]s; the text of a file, as Python
    reads it, is a sequence of Unicode code points ([text]).  The helpers
    of [posixpath] and [pathlib] that the module calls are written out as
    executable functions, following the CPython definitions (POSIX
    flavour; [suffix], [is_dir] and [is_file] as up to Python 3.13).  The
    file system is a tree of directories and regular files with read and
    search permissions, without links.  What the import system answers
    and how the locale decodes the bytes of a file are parameters of the
    world. *)

From Stdlib Require Import String Ascii List Bool NArith ZArith Permutation.
Import ListNotations.
Open Scope string_scope.
Open Scope list_scope.

(** ** Exceptions and results *)

(** The exception classes that can reach a caller.  All of them derive from
    [Exception], so a bare [except Exception] catches every one of them. *)
Inductive exn : Type :=
| FileNotFoundError (msg : string)
| NotADirectoryError (msg : string)
| IsADirectoryError (msg : string)
| ModuleNotFoundError (msg : string)
| JSONDecodeError (msg : string)
| PermissionError (msg : string)
| UnicodeDecodeError (msg : string)
| OtherException (msg : string).

Inductive result (A : Type) : Type :=
| Ok (a : A)
| Raise (e : exn).

Arguments Ok {A} a.
Arguments Raise {A} e.

Definition bind {A B : Type} (m : result A) (k : A -> result B) : result B :=
  match m with
  | Ok a => k a
  | Raise e => Raise e
  end.

(** [try: body / except Exception: handler]. *)
Definition try_except {A : Type} (body : result A) (handler : exn -> result A)
  : result A :=
  match body with
  | Ok a => Ok a
  | Raise e => handler e
  end.

Declare Scope result_scope.
Delimit Scope result_scope with result.
Notation "x <- m ;; k" := (bind m (fun x => k))
  (at level 61, m at next level, right associativity) : result_scope.
Open Scope result_scope.

Definition is_FileNotFoundError (e : exn) : bool :=
  match e with
  | FileNotFoundError _ => true
  | _ => false
  end.

(** ** Python string helpers *)

Definition sep : ascii := "/"%char.

Definition is_empty (s : string) : bool :=
  match s with
  | EmptyString => true
  | String _ _ => false
  end.

(** [c in s] for a one-character [c]. *)
Fixpoint contains_char (c : ascii) (s : string) : bool :=
  match s with
  | EmptyString => false
  | String a s' => Ascii.eqb a c || contains_char c s'
  end.

(** [s.split(c)]: never empty, [""] splits to [[""]]. *)
Fixpoint split_char (c : ascii) (s : string) : list string :=
  match s with
  | EmptyString => [EmptyString]
  | String a s' =>
      if Ascii.eqb a c then EmptyString :: split_char c s'
      else match split_char c s' with
           | [] => [String a EmptyString]
           | h :: t => String a h :: t
           end
  end.

(** [s.rpartition(c)]: the parts before and after the last [c], if any. *)
Fixpoint rpartition (c : ascii) (s : string) : option (string * string) :=
  match s with
  | EmptyString => None
  | String a s' =>
      match rpartition c s' with
      | Some (before, after) => Some (String a before, after)
      | None => if Ascii.eqb a c then Some (EmptyString, s') else None
      end
  end.

(** [d.join(l)]. *)
Fixpoint join_with (d : string) (l : list string) : string :=
  match l with
  | [] => EmptyString
  | [x] => x
  | x :: rest => (x ++ d ++ join_with d rest)%string
  end.

(** [s.startswith(c)] and [s.endswith(c)] for the separator. *)
Definition starts_with_sep (s : string) : bool :=
  match s with
  | String a _ => Ascii.eqb a sep
  | EmptyString => false
  end.

Fixpoint ends_with_sep (s : string) : bool :=
  match s with
  | EmptyString => false
  | String a EmptyString => Ascii.eqb a sep
  | String _ s' => ends_with_sep s'
  end.

(** [s.rstrip("/")]. *)
Fixpoint rstrip_sep (s : string) : string :=
  match s with
  | EmptyString => EmptyString
  | String a s' =>
      let r := rstrip_sep s' in
      if Ascii.eqb a sep && is_empty r then EmptyString else String a r
  end.

(** [s == "/" * len(s)]. *)
Fixpoint all_sep (s : string) : bool :=
  match s with
  | EmptyString => true
  | String a s' => Ascii.eqb a sep && all_sep s'
  end.

(** ** Python text

    What a text-mode read yields: a sequence of Unicode code points. *)

Definition text : Type := list N.

(** The text of an ASCII literal of the source. *)
Definition to_text (s : string) : text := map N_of_ascii (list_ascii_of_string s).

Fixpoint text_eqb (a b : text) : bool :=
  match a, b with
  | [], [] => true
  | x :: a', y :: b' => N.eqb x y && text_eqb a' b'
  | _, _ => false
  end.

Definition is_nil {A : Type} (l : list A) : bool :=
  match l with
  | [] => true
  | _ :: _ => false
  end.

(** [c.isspace()], the characters [str.strip()] removes: U+0009 to U+000D,
    U+001C to U+0020, U+0085, U+00A0, U+1680, U+2000 to U+200A, U+2028,
    U+2029, U+202F, U+205F and U+3000. *)
Definition is_space (c : N) : bool :=
  (((9 <=? c) && (c <=? 13)) || ((28 <=? c) && (c <=? 32))
   || (c =? 133) || (c =? 160) || (c =? 5760)
   || ((8192 <=? c) && (c <=? 8202))
   || (c =? 8232) || (c =? 8233) || (c =? 8239) || (c =? 8287) || (c =? 12288))%N.

(** The code point of ["="]. *)
Definition EQUALS : N := 61.

(** [c in t] for one character [c]. *)
Fixpoint text_contains (c : N) (t : text) : bool :=
  match t with
  | [] => false
  | a :: t' => N.eqb a c || text_contains c t'
  end.

(** [t.split(c)] *)
Fixpoint text_split (c : N) (t : text) : list text :=
  match t with
  | [] => [[]]
  | a :: t' =>
      if N.eqb a c then [] :: text_split c t'
      else match text_split c t' with
           | [] => [[a]]
           | h :: rest => (a :: h) :: rest
           end
  end.

Fixpoint lstrip (t : text) : text :=
  match t with
  | [] => []
  | a :: t' => if is_space a then lstrip t' else t
  end.

Fixpoint rstrip (t : text) : text :=
  match t with
  | [] => []
  | a :: t' =>
      let r := rstrip t' in
      if is_space a && is_nil r then [] else a :: r
  end.

(** [t.strip()] *)
Definition strip (t : text) : text := rstrip (lstrip t).

(** ** posixpath *)

Module posixpath.

(** [os.path.join(a, b)] for two arguments. *)
Definition join2 (path b : string) : string :=
  if starts_with_sep b || is_empty path then b
  else if ends_with_sep path then (path ++ b)%string
  else (path ++ String sep b)%string.

(** [os.path.join(a, *p)]. *)
Definition join (a : string) (p : list string) : string :=
  fold_left join2 p a.

(** [os.path.dirname(p)]: [head = p[:p.rfind("/") + 1]], stripped of its
    trailing separators unless it consists of separators only. *)
Definition dirname (p : string) : string :=
  let head := match rpartition sep p with
              | Some (before, _) => (before ++ String sep EmptyString)%string
              | None => EmptyString
              end in
  if negb (is_empty head) && negb (all_sep head) then rstrip_sep head else head.

(** [os.path.basename(p)]: [p[p.rfind("/") + 1:]], the terminal path
    segment. *)
Definition basename (p : string) : string :=
  match rpartition sep p with
  | Some (_, after) => after
  | None => p
  end.

Definition isabs (p : string) : bool := starts_with_sep p.

(** One round of the component loop of [normpath]. *)
Definition norm_step (initial_slashes : nat) (new_comps : list string)
    (comp : string) : list string :=
  if String.eqb comp "" || String.eqb comp "." then new_comps
  else if negb (String.eqb comp "..")
          || (Nat.eqb initial_slashes 0 && match new_comps with [] => true | _ => false end)
          || (match new_comps with
              | [] => false
              | _ => String.eqb (last new_comps "") ".."
              end)
       then new_comps ++ [comp]
       else removelast new_comps.

Definition count_initial_slashes (path : string) : nat :=
  match path with
  | String a (String b (String c _)) =>
      if Ascii.eqb a sep then
        if Ascii.eqb b sep && negb (Ascii.eqb c sep) then 2 else 1
      else 0
  | String a (String b EmptyString) =>
      if Ascii.eqb a sep then if Ascii.eqb b sep then 2 else 1 else 0
  | String a EmptyString => if Ascii.eqb a sep then 1 else 0
  | EmptyString => 0
  end.

Fixpoint repeat_sep (n : nat) : string :=
  match n with
  | O => EmptyString
  | S k => String sep (repeat_sep k)
  end.

(** [os.path.normpath(path)]. *)
Definition normpath (path : string) : string :=
  if is_empty path then "."
  else
    let initial_slashes := count_initial_slashes path in
    let comps := fold_left (norm_step initial_slashes) (split_char sep path) [] in
    let out := (repeat_sep initial_slashes ++ join_with "/" comps)%string in
    if is_empty out then "." else out.

(** [os.path.abspath(path)], with the working directory made explicit. *)
Definition abspath (cwd path : string) : string :=
  normpath (if isabs path then path else join2 cwd path).

End posixpath.


(** ** pathlib (pure paths, POSIX flavour) *)

Module pathlib.

(** A parsed path: the root (empty, one slash or two) and the components
    after it.  Empty and ["."] components are dropped when parsing, [".."]
    is kept. *)
Record PurePath : Type := mkPath { root : string; tail : list string }.

Definition keep_part (x : string) : bool :=
  negb (String.eqb x "" || String.eqb x ".").

(** [Path(s)]. *)
Definition parse (s : string) : PurePath :=
  {| root := posixpath.repeat_sep (posixpath.count_initial_slashes s);
     tail := filter keep_part (split_char sep s) |}.

(** [str(p)]. *)
Definition str (p : PurePath) : string :=
  let out := (root p ++ join_with "/" (tail p))%string in
  if is_empty out then "." else out.

(** [p.name]. *)
Definition name (p : PurePath) : string := last (tail p) "".

(** [p.parent]. *)
Definition parent (p : PurePath) : PurePath :=
  {| root := root p; tail := removelast (tail p) |}.

(** [p.suffix]: from the last dot of the name on, unless that dot opens or
    closes the name. *)
Definition suffix (p : PurePath) : string :=
  match rpartition "."%char (name p) with
  | Some (before, after) =>
      if negb (is_empty before) && negb (is_empty after)
      then String "."%char after else ""
  | None => ""
  end.

(** [p / s] and [p.joinpath(s)]. *)
Definition truediv (p : PurePath) (s : string) : PurePath :=
  parse (posixpath.join2 (str p) s).

(** The child a directory listing yields for the entry [n]. *)
Definition child (p : PurePath) (n : string) : PurePath :=
  {| root := root p; tail := tail p ++ [n] |}.

End pathlib.

Import pathlib.

(** ** The world: file system and import system *)

(** A file-system tree without links.  [File] and [Dir] grant every
    permission to the process; [Unreadable] is a regular file it may not
    read, [Restricted] a directory with the given permissions to read
    (list) and to search.  The entries of a directory stand in the order
    in which the system lists them. *)
#[local] Unset Elimination Schemes.
Inductive node : Type :=
| File (content : string)
| Unreadable
| Dir (entries : list (string * node))
| Restricted (readable searchable : bool) (entries : list (string * node)).
#[local] Set Elimination Schemes.

Inductive errno : Type :=
| ENOENT
| ENOTDIR
| EACCES.

Definition is_directory (n : node) : bool :=
  match n with
  | Dir _ | Restricted _ _ _ => true
  | File _ | Unreadable => false
  end.

Definition is_regular (n : node) : bool :=
  match n with
  | File _ | Unreadable => true
  | Dir _ | Restricted _ _ _ => false
  end.

Fixpoint lookup_entry (n : string) (entries : list (string * node)) : option node :=
  match entries with
  | [] => None
  | (k, x) :: rest => if String.eqb k n then Some x else lookup_entry n rest
  end.

(** The entries in which the component [comp] is looked up from the node
    [n]: a regular file has none, and a directory without search
    permission yields them for the empty component only, which looks
    nothing up. *)
Definition searchable_entries (n : node) (comp : string)
  : errno + list (string * node) :=
  match n with
  | File _ | Unreadable => inl ENOTDIR
  | Dir entries => inr entries
  | Restricted _ searchable entries =>
      if searchable || String.eqb comp "" then inr entries else inl EACCES
  end.

(** Path resolution.  [stack] lists the nodes entered below the root,
    innermost first; the current node is its head, or the root. *)
Fixpoint walk (fs : node) (stack : list node) (comps : list string)
  : errno + list node :=
  match comps with
  | [] => inr stack
  | comp :: rest =>
      match searchable_entries (hd fs stack) comp with
      | inl e => inl e
      | inr entries =>
          if String.eqb comp "" || String.eqb comp "." then walk fs stack rest
          else if String.eqb comp ".." then walk fs (List.tl stack) rest
          else match lookup_entry comp entries with
               | None => inl ENOENT
               | Some n => walk fs (n :: stack) rest
               end
      end
  end.

(** The module specification [importlib.util.find_spec] returns; only its
    [origin] is read. *)
Record ModuleSpec : Type := mkSpec { origin : option string }.

Record World : Type := mkWorld {
  fs_root : node;
  (** [os.getcwd()] *)
  getcwd : string;
  (** [__file__] of [pymkm/io/data_registry.py] *)
  module_file : string;
  (** [importlib.util.find_spec(name)]: raises, or returns [None] or a
      specification *)
  find_spec : string -> result (option ModuleSpec);
  (** [importlib.resources.files(name)]: raises, or returns the directory
      of the package *)
  files : string -> result PurePath;
  (** The codec of the locale, which [open(path, "r")] uses: the text of
      the bytes of a file, or nothing when they do not decode *)
  decode : string -> option text
}.

(** Resolution of [path] in the tree [fs], relative paths starting from
    [cwd]. *)
Definition resolve (fs : node) (cwd path : string) : errno + node :=
  if is_empty path then inl ENOENT
  else
    let start :=
      if posixpath.isabs path then inr []
      else walk fs [] (split_char sep cwd) in
    match start with
    | inr stack =>
        match walk fs stack (split_char sep path) with
        | inr st => inr (hd fs st)
        | inl e => inl e
        end
    | inl e => inl e
    end.

(** [os.stat(path)] *)
Definition stat (w : World) (path : string) : errno + node :=
  resolve (fs_root w) (getcwd w) path.

(** [os.path.exists(path)] *)
Definition path_exists (w : World) (path : string) : bool :=
  match stat w path with
  | inr _ => true
  | inl _ => false
  end.

(** The exception a failed system call surfaces as. *)
Definition os_error (e : errno) (path : string) : exn :=
  match e with
  | ENOENT => FileNotFoundError path
  | ENOTDIR => NotADirectoryError path
  | EACCES => PermissionError path
  end.

(** What [Path.is_dir] and [Path.is_file] make of a failed [stat]: a
    missing path is no directory and no file, any other error is raised. *)
Definition ignore_missing (e : errno) (path : string) : result bool :=
  match e with
  | ENOENT | ENOTDIR => Ok false
  | EACCES => Raise (os_error e path)
  end.

(** [p.is_dir()] *)
Definition is_dir (w : World) (p : PurePath) : result bool :=
  match stat w (str p) with
  | inr n => Ok (is_directory n)
  | inl e => ignore_missing e (str p)
  end.

(** [p.is_file()] *)
Definition is_file (w : World) (p : PurePath) : result bool :=
  match stat w (str p) with
  | inr n => Ok (is_regular n)
  | inl e => ignore_missing e (str p)
  end.

(** [list(p.iterdir())] *)
Definition iterdir (w : World) (p : PurePath) : result (list PurePath) :=
  match stat w (str p) with
  | inr (Dir entries) | inr (Restricted true _ entries) =>
      Ok (map (fun e => child p (fst e)) entries)
  | inr (Restricted false _ _) => Raise (PermissionError (str p))
  | inr (File _) | inr Unreadable => Raise (NotADirectoryError (str p))
  | inl e => Raise (os_error e (str p))
  end.

Definition CR : N := 13.
Definition NEWLINE : N := 10.

(** The line feed of the messages. *)
Definition LF : ascii := ascii_of_nat 10.

(** Universal newlines: a text-mode read turns CR LF and a lone CR into LF. *)
Fixpoint translate_newlines (prev_cr : bool) (t : text) : text :=
  match t with
  | [] => []
  | a :: t' =>
      if N.eqb a CR then NEWLINE :: translate_newlines true t'
      else if N.eqb a NEWLINE then
        if prev_cr then translate_newlines false t'
        else NEWLINE :: translate_newlines false t'
      else a :: translate_newlines false t'
  end.

(** [open(path, "r")] followed by [f.read()] *)
Definition open_read (w : World) (path : string) : result text :=
  match stat w path with
  | inr (File content) =>
      match decode w content with
      | Some t => Ok (translate_newlines false t)
      | None => Raise (UnicodeDecodeError path)
      end
  | inr Unreadable => Raise (PermissionError path)
  | inr (Dir _) | inr (Restricted true _ _) => Raise (IsADirectoryError path)
  | inr (Restricted false _ _) => Raise (PermissionError path)
  | inl e => Raise (os_error e path)
  end.

(** The lines of a text, each with its line ending. *)
Fixpoint splitlines_keepends (t : text) : list text :=
  match t with
  | [] => []
  | a :: t' =>
      if N.eqb a NEWLINE then [a] :: splitlines_keepends t'
      else match splitlines_keepends t' with
           | [] => [[a]]
           | h :: rest => (a :: h) :: rest
           end
  end.

(** [open(path, "r")] followed by [f.readlines()] *)
Definition readlines (w : World) (path : string) : result (list text) :=
  t <- open_read w path ;;
  Ok (splitlines_keepends t).

(** ** The module *)

Definition REQUIRED_HEADER_KEYS : list string :=
  ["Ion"; "AtomicNumber"; "MassNumber"; "SourceProgram"; "IonizationPotential"; "Target"].

(** The local fallback of [get_default_txt_path]:
    [abspath(join(dirname(__file__), "..", "data", "defaults", source, filename))]. *)
Definition local_txt_path (w : World) (source filename : string) : string :=
  posixpath.abspath (getcwd w)
    (posixpath.join (posixpath.dirname (module_file w))
       [".."; "data"; "defaults"; source; filename]).

Definition not_found_message (source filename : string) : string :=
  ("Cannot find file '" ++ filename ++ "' for source '" ++ source ++ "'")%string.

(** The [try] block of [get_default_txt_path]: [Ok (Some p)] when it
    returns [p], [Ok None] when it falls through. *)
Definition installed_txt_path (w : World) (source filename : string)
  : result (option string) :=
  spec <- find_spec w ("pymkm.data.defaults." ++ source)%string ;;
  match spec with
  | Some sp =>
      match origin sp with
      | Some o =>
          let base_dir := posixpath.dirname o in
          let full_path := posixpath.join base_dir [filename] in
          if path_exists w full_path then Ok (Some full_path) else Ok None
      | None => Ok None
      end
  | None => Ok None
  end.

Definition get_default_txt_path (w : World) (source filename : string)
  : result string :=
  found <- try_except (installed_txt_path w source filename) (fun _ => Ok None) ;;
  match found with
  | Some full_path => Ok full_path
  | None =>
      let local := local_txt_path w source filename in
      if path_exists w local then Ok local
      else Raise (FileNotFoundError (not_found_message source filename))
  end.

(** A [dict] with text keys, in insertion order. *)
Definition dict : Type := list (text * text).

Fixpoint dict_set (k v : text) (d : dict) : dict :=
  match d with
  | [] => [(k, v)]
  | (k', v') :: rest =>
      if text_eqb k' k then (k', v) :: rest else (k', v') :: dict_set k v rest
  end.

Fixpoint dict_mem (k : text) (d : dict) : bool :=
  match d with
  | [] => false
  | (k', _) :: rest => text_eqb k' k || dict_mem k rest
  end.

(** [{line.split("=")[0].strip(): line.split("=")[1].strip()
      for line in lines if "=" in line}] *)
Definition parse_header (lines : list text) : dict :=
  fold_left
    (fun header line =>
       if text_contains EQUALS line then
         let parts := text_split EQUALS line in
         dict_set (strip (nth 0 parts [])) (strip (nth 1 parts [])) header
       else header)
    lines [].

(** [[key for key in REQUIRED_HEADER_KEYS if key not in header]] *)
Definition missing_keys (header : dict) : list string :=
  filter (fun key => negb (dict_mem (to_text key) header)) REQUIRED_HEADER_KEYS.

Definition malformed_message (subdir_name : string) (missing : list string) : string :=
  ("Source files with unexpected header format in default source folder "
     ++ subdir_name ++ ": " ++ join_with ", " missing ++ "."
     ++ String LF "Could not locate default sources.")%string.

Definition has_txt_suffix (f : PurePath) : bool := String.eqb (suffix f) ".txt".

(** The inner loop of [get_available_sources], over the text files of one
    source. *)
Fixpoint check_txt_files (w : World) (subdir : PurePath) (txt_files : list PurePath)
  : result unit :=
  match txt_files with
  | [] => Ok tt
  | txt_file :: rest =>
      lines <- readlines w (str txt_file) ;;
      let header := parse_header lines in
      let missing := missing_keys header in
      match missing with
      | _ :: _ => Raise (FileNotFoundError (malformed_message (name subdir) missing))
      | [] => check_txt_files w subdir rest
      end
  end.

(** The outer loop of [get_available_sources]; [subdirectories] is the list
    built so far. *)
Fixpoint scan_subdirectories (w : World) (all_subdirectories : list PurePath)
    (subdirectories : list string) : result (list string) :=
  match all_subdirectories with
  | [] => Ok subdirectories
  | subdir :: rest =>
      let init_path := truediv subdir "__init__.py" in
      marked <- is_file w init_path ;;
      if negb marked then scan_subdirectories w rest subdirectories
      else
        entries <- iterdir w subdir ;;
        let txt_files := filter has_txt_suffix entries in
        _ <- check_txt_files w subdir txt_files ;;
        scan_subdirectories w rest (subdirectories ++ [name subdir])
  end.

(** [[a for a in l if f(a)]], the first failing test ending the
    comprehension. *)
Fixpoint filter_result {A : Type} (f : A -> result bool) (l : list A)
  : result (list A) :=
  match l with
  | [] => Ok []
  | a :: rest =>
      keep <- f a ;;
      kept <- filter_result f rest ;;
      Ok (if keep then a :: kept else kept)
  end.

(** [[f for f in folder.iterdir() if f.is_dir()]] *)
Definition list_subdirectories (w : World) (folder : PurePath) : result (list PurePath) :=
  entries <- iterdir w folder ;;
  filter_result (is_dir w) entries.

(** [spec and spec.origin]: the origin when the specification and its
    origin are both truthy. *)
Definition truthy_origin (spec : option ModuleSpec) : option string :=
  match spec with
  | Some sp =>
      match origin sp with
      | Some o => if is_empty o then None else Some o
      | None => None
      end
  | None => None
  end.

Definition get_available_sources (w : World) : result (list string) :=
  all_subdirectories <-
    try_except
      (base <- files w "pymkm.data.defaults" ;;
       list_subdirectories w base)
      (fun _ =>
         spec <- find_spec w "pymkm.data.defaults" ;;
         _ <- match truthy_origin spec with
              | Some o =>
                  let folder_path := parent (parse o) in
                  list_subdirectories w folder_path
              | None => Ok []
              end ;;
         Raise (FileNotFoundError "Could not locate default sources.")) ;;
  scan_subdirectories w all_subdirectories [].

(** [[f.name for f in folder.iterdir() if f.suffix == ".txt"]] *)
Definition list_txt_names (w : World) (folder : PurePath) : result (list string) :=
  entries <- iterdir w folder ;;
  Ok (map name (filter has_txt_suffix entries)).

Definition list_available_defaults (w : World) (source : string)
  : result (list string) :=
  try_except
    (folder <- files w ("pymkm.data.defaults." ++ source)%string ;;
     list_txt_names w folder)
    (fun _ =>
       spec <- find_spec w ("pymkm.data.defaults." ++ source)%string ;;
       match truthy_origin spec with
       | Some o =>
           let folder_path := parent (parse o) in
           list_txt_names w folder_path
       | None =>
           Raise (FileNotFoundError
                    ("Could not locate txt files for source: " ++ source)%string)
       end).

Section Loader.

(** [json.load] is the standard library's: the parsed value and the parser
    are parameters of the loader. *)
Variable json : Type.
Variable json_loads : text -> result json.

(** The local fallback of [load_lookup_table]:
    [abspath(join(dirname(__file__), "..", "data", "elements.json"))]. *)
Definition local_elements_path (w : World) : string :=
  posixpath.abspath (getcwd w)
    (posixpath.join (posixpath.dirname (module_file w))
       [".."; "data"; "elements.json"]).

(** [with open(path, "r") as f: return json.load(f)] *)
Definition load_json_file (w : World) (path : string) : result json :=
  t <- open_read w path ;;
  json_loads t.

Definition load_lookup_table (w : World) : result json :=
  try_except
    (pkg <- files w "pymkm.data" ;;
     let path := truediv pkg "elements.json" in
     load_json_file w (str path))
    (fun _ =>
       let local_path := local_elements_path w in
       load_json_file w local_path).

End Loader.

Arguments load_json_file {json} json_loads w path.
Arguments load_lookup_table {json} json_loads w.

(** ** Vocabulary of the specification *)

(** [needle in hay] *)
Definition occurs_in (needle hay : string) : Prop :=
  exists pre post, hay = (pre ++ needle ++ post)%string.

(** The same world with another [importlib.util.find_spec]. *)
Definition with_find_spec (w : World)
    (f : string -> result (option ModuleSpec)) : World :=
  {| fs_root := fs_root w;
     getcwd := getcwd w;
     module_file := module_file w;
     find_spec := f;
     files := files w;
     decode := decode w |}.

(** The directory of the source in the installed tier: the directory of the
    origin of its module specification, when the import system yields one. *)
Definition installed_source_dir (w : World) (source : string) : option string :=
  match find_spec w ("pymkm.data.defaults." ++ source)%string with
  | Ok (Some sp) =>
      match origin sp with
      | Some o => Some (posixpath.dirname o)
      | None => None
      end
  | _ => None
  end.

(** The path the installed tier probes for [filename]. *)
Definition installed_candidate (w : World) (source filename : string) : option string :=
  match installed_source_dir w source with
  | Some base_dir => Some (posixpath.join base_dir [filename])
  | None => None
  end.

(** The file is present in the installed tier. *)
Definition in_installed_tier (w : World) (source filename : string) : bool :=
  match installed_candidate w source filename with
  | Some p => path_exists w p
  | None => false
  end.

(** The file is present in the local fallback tier. *)
Definition in_local_tier (w : World) (source filename : string) : bool :=
  path_exists w (local_txt_path w source filename).

(** The directory of the source in the local fallback tier. *)
Definition local_source_dir (w : World) (source : string) : string :=
  posixpath.abspath (getcwd w)
    (posixpath.join (posixpath.dirname (module_file w))
       [".."; "data"; "defaults"; source]).

(** [os.path.isdir(path)] *)
Definition isdir (w : World) (path : string) : bool :=
  match stat w path with
  | inr n => is_directory n
  | inl _ => false
  end.

(** A directory the process may list and search. *)
Definition accessible_dir (w : World) (p : PurePath) : bool :=
  match stat w (str p) with
  | inr (Dir _) | inr (Restricted true true _) => true
  | _ => false
  end.

(** A prefix that is empty or ends with the separator: what precedes the
    last segment of a path. *)
Definition sep_closed (q : string) : Prop :=
  q = "" \/ ends_with_sep q = true.

(** A name of a directory entry: one non-empty path segment other than
    ["."] and [".."]. *)
Definition is_file_name (f : string) : bool :=
  negb (is_empty f) && negb (contains_char sep f)
  && negb (String.eqb f ".") && negb (String.eqb f "..").

(** *** Headers, in the words of the specification *)

(** Text made of white space only. *)
Definition blank (t : text) : Prop :=
  Forall (fun c => is_space c = true) t.

(** Text with no white space at either end. *)
Definition trimmed (k : text) : Prop :=
  forall c, hd_error k = Some c \/ hd_error (rev k) = Some c -> is_space c = false.

(** The line declares the key [k]: [k], possibly with white space around
    it, is what stands before the first ["="] of the line. *)
Definition line_declares (line k : text) : Prop :=
  exists pad1 pad2 rest,
    line = pad1 ++ k ++ pad2 ++ EQUALS :: rest
    /\ blank pad1 /\ blank pad2 /\ trimmed k /\ ~ In EQUALS k.

(** Some line declares the key. *)
Definition declares (lines : list text) (k : text) : Prop :=
  exists line, In line lines /\ line_declares line k.

(** The required keys, as the specification lists them. *)
Definition required_keys : list string :=
  ["Ion"; "AtomicNumber"; "MassNumber"; "SourceProgram"; "IonizationPotential"; "Target"].

(** The lines declare every required key. *)
Definition declares_required (lines : list text) : Prop :=
  forall key, In key required_keys -> declares lines (to_text key).

(** A required key that no line declares. *)
Definition undeclared (lines : list text) (key : string) : Prop :=
  ~ declares lines (to_text key).

(** [m] lists, in their order, the elements of [l] that satisfy [P]. *)
Inductive picks {A : Type} (P : A -> Prop) : list A -> list A -> Prop :=
| picks_nil : picks P [] []
| picks_take (x : A) (l m : list A) :
    P x -> picks P l m -> picks P (x :: l) (x :: m)
| picks_skip (x : A) (l m : list A) :
    ~ P x -> picks P l m -> picks P (x :: l) m.

(** A text file: an entry whose name ends in [.txt] after a non-empty
    stem. *)
Definition txt_file (f : PurePath) : Prop :=
  exists stem, stem <> "" /\ name f = (stem ++ ".txt")%string.

(** A file that can be read and declares every required key. *)
Definition well_formed_file (w : World) (f : PurePath) : Prop :=
  exists lines, readlines w (str f) = Ok lines /\ declares_required lines.

(** A directory that can be listed and whose text files, if any, are all
    well-formed. *)
Definition well_formed_source (w : World) (d : PurePath) : Prop :=
  exists entries,
    iterdir w d = Ok entries
    /\ forall f, In f entries -> txt_file f -> well_formed_file w f.

(** The directory holds the package marker, or is seen not to. *)
Definition marked (w : World) (d : PurePath) : Prop :=
  is_file w (truediv d "__init__.py") = Ok true.

Definition unmarked (w : World) (d : PurePath) : Prop :=
  is_file w (truediv d "__init__.py") = Ok false.

(** An entry of the root that is a valid source: a subdirectory, marked
    and well-formed. *)
Definition is_source (w : World) (e : PurePath) : Prop :=
  is_dir w e = Ok true /\ marked w e /\ well_formed_source w e.

(** An entry of the root that the enumeration passes over: not a
    directory, or a subdirectory without the marker. *)
Definition skipped (w : World) (e : PurePath) : Prop :=
  is_dir w e = Ok false \/ (is_dir w e = Ok true /\ unmarked w e).

(** *** The lister and the loader *)

(** The listing of the source directory by the installed tier of
    [list_available_defaults]. *)
Definition installed_listing (w : World) (source : string) : result (list PurePath) :=
  folder <- files w ("pymkm.data.defaults." ++ source)%string ;;
  iterdir w folder.

(** The directory the second tier of [list_available_defaults] resolves,
    if any. *)
Definition fallback_dir (w : World) (source : string) : option PurePath :=
  match find_spec w ("pymkm.data.defaults." ++ source)%string with
  | Ok spec =>
      match truthy_origin spec with
      | Some o => Some (parent (parse o))
      | None => None
      end
  | Raise _ => None
  end.

(** The text that the locale makes of the regular, readable file at
    [path], if there is one and it decodes. *)
Definition file_content (w : World) (path : string) : option text :=
  match stat w path with
  | inr (File content) => decode w content
  | _ => None
  end.

(** The lookup file of the installed tier. *)
Definition installed_elements (w : World) : option text :=
  match files w "pymkm.data" with
  | Ok pkg => file_content w (str (truediv pkg "elements.json"))
  | Raise _ => None
  end.

(** The lookup file of the local fallback tier. *)
Definition local_elements (w : World) : option text :=
  file_content w (local_elements_path w).

(** An error that a directory listing of the world raises. *)
Definition raised_by_listing (w : World) (e : exn) : Prop :=
  exists p, iterdir w p = Raise e.

(** An error that the reading of a file of the world raises. *)
Definition raised_by_reading (w : World) (e : exn) : Prop :=
  exists p, readlines w p = Raise e.

(** An error that a test of the kind of a path raises. *)
Definition raised_by_kind_test (w : World) (e : exn) : Prop :=
  exists p, is_dir w p = Raise e \/ is_file w p = Raise e.

(** ** A JSON reader for the examples

    The loader is parametric in [json.load].  The examples instantiate it
    with this reader of the JSON fragment they use: objects, arrays,
    strings with the simple escapes, integers and the three literals. *)

Module Json.

#[local] Unset Elimination Schemes.
Inductive value : Type :=
| Null
| Bool (b : bool)
| Int (z : Z)
| Str (s : text)
| Array (items : list value)
| Object (members : list (text * value)).
#[local] Set Elimination Schemes.

Definition DQ : N := 34.
Definition BS : N := 92.

Definition is_ws (a : N) : bool :=
  (N.eqb a 32 || N.eqb a 9 || N.eqb a 10 || N.eqb a 13)%N.

Fixpoint skip_ws (s : text) : text :=
  match s with
  | [] => []
  | a :: s' => if is_ws a then skip_ws s' else s
  end.

Definition unescape (a : N) : option N :=
  if N.eqb a DQ then Some DQ
  else if N.eqb a BS then Some BS
  else if N.eqb a 47 then Some 47%N
  else if N.eqb a 110 then Some 10%N
  else if N.eqb a 114 then Some 13%N
  else if N.eqb a 116 then Some 9%N
  else if N.eqb a 98 then Some 8%N
  else if N.eqb a 102 then Some 12%N
  else None.

(** The text of a string after its opening quote, and what follows it. *)
Fixpoint read_string (s : text) : option (text * text) :=
  match s with
  | [] => None
  | a :: s' =>
      if N.eqb a DQ then Some ([], s')
      else if N.eqb a BS then
        match s' with
        | b :: s'' =>
            match unescape b, read_string s'' with
            | Some c, Some (r, rest) => Some (c :: r, rest)
            | _, _ => None
            end
        | [] => None
        end
      else if N.ltb a 32 then None
      else match read_string s' with
           | Some (r, rest) => Some (a :: r, rest)
           | None => None
           end
  end.

Definition digit (a : N) : option Z :=
  if (N.leb 48 a && N.leb a 57)%N then Some (Z.of_N (a - 48)) else None.

Fixpoint read_digits (acc : Z) (s : text) : Z * text :=
  match s with
  | [] => (acc, s)
  | a :: s' =>
      match digit a with
      | Some d => read_digits (10 * acc + d)%Z s'
      | None => (acc, s)
      end
  end.

Definition read_int (s : text) : option (Z * text) :=
  match s with
  | a :: s' =>
      match digit a with
      | Some _ => Some (read_digits 0 s)
      | None => None
      end
  | [] => None
  end.

Fixpoint strip_prefix (pre s : text) : option text :=
  match pre, s with
  | [], _ => Some s
  | a :: pre', b :: s' => if N.eqb a b then strip_prefix pre' s' else None
  | _, [] => None
  end.

(** A later member replaces an earlier one with the same key, as in a
    Python [dict]. *)
Fixpoint set_member (k : text) (v : value) (d : list (text * value))
  : list (text * value) :=
  match d with
  | [] => [(k, v)]
  | (k', v') :: rest =>
      if text_eqb k' k then (k', v) :: rest else (k', v') :: set_member k v rest
  end.

Fixpoint read_value (fuel : nat) (s : text) {struct fuel} : option (value * text) :=
  match fuel with
  | O => None
  | S f =>
      match skip_ws s with
      | [] => None
      | a :: s' =>
          if N.eqb a 123 then
            match skip_ws s' with
            | b :: s'' =>
                if N.eqb b 125 then Some (Object [], s'')
                else match read_members f [] (b :: s'') with
                     | Some (ms, rest) => Some (Object ms, rest)
                     | None => None
                     end
            | [] => None
            end
          else if N.eqb a 91 then
            match skip_ws s' with
            | b :: s'' =>
                if N.eqb b 93 then Some (Array [], s'')
                else match read_items f [] (b :: s'') with
                     | Some (xs, rest) => Some (Array xs, rest)
                     | None => None
                     end
            | [] => None
            end
          else if N.eqb a DQ then
            match read_string s' with
            | Some (r, rest) => Some (Str r, rest)
            | None => None
            end
          else if N.eqb a 45 then
            match read_int s' with
            | Some (z, rest) => Some (Int (- z), rest)
            | None => None
            end
          else
            match read_int (a :: s') with
            | Some (z, rest) => Some (Int z, rest)
            | None =>
                match strip_prefix (to_text "null") (a :: s') with
                | Some rest => Some (Null, rest)
                | None =>
                    match strip_prefix (to_text "true") (a :: s') with
                    | Some rest => Some (Bool true, rest)
                    | None =>
                        match strip_prefix (to_text "false") (a :: s') with
                        | Some rest => Some (Bool false, rest)
                        | None => None
                        end
                    end
                end
            end
      end
  end
with read_members (fuel : nat) (acc : list (text * value)) (s : text)
    {struct fuel} : option (list (text * value) * text) :=
  match fuel with
  | O => None
  | S f =>
      match skip_ws s with
      | a :: s' =>
          if N.eqb a DQ then
            match read_string s' with
            | Some (k, rest) =>
                match skip_ws rest with
                | c :: rest' =>
                    if N.eqb c 58 then
                      match read_value f rest' with
                      | Some (v, rest2) =>
                          let acc' := set_member k v acc in
                          match skip_ws rest2 with
                          | d :: rest3 =>
                              if N.eqb d 44 then read_members f acc' rest3
                              else if N.eqb d 125 then Some (acc', rest3)
                              else None
                          | [] => None
                          end
                      | None => None
                      end
                    else None
                | [] => None
                end
            | None => None
            end
          else None
      | [] => None
      end
  end
with read_items (fuel : nat) (acc : list value) (s : text)
    {struct fuel} : option (list value * text) :=
  match fuel with
  | O => None
  | S f =>
      match read_value f s with
      | Some (v, rest) =>
          match skip_ws rest with
          | d :: rest' =>
              if N.eqb d 44 then read_items f (acc ++ [v]) rest'
              else if N.eqb d 93 then Some (acc ++ [v], rest')
              else None
          | [] => None
          end
      | None => None
      end
  end.

Definition loads (s : text) : result value :=
  match read_value (2 * List.length s + 2) s with
  | Some (v, rest) =>
      if is_nil (skip_ws rest) then Ok v else Raise (JSONDecodeError "Extra data")
  | None => Raise (JSONDecodeError "Expecting value")
  end.

End Json.

(** ** Example worlds *)

Module Examples.

(** The import system of an interpreter whose only search path entry is
    [site]: a package is a directory with an [__init__.py]; looking up a
    dotted name imports its parent first. *)
Definition dotted_path (site name : string) : string :=
  (site ++ "/" ++ join_with "/" (split_char "."%char name))%string.

Definition is_package (fs : node) (site name : string) : bool :=
  match resolve fs "/" (dotted_path site name ++ "/__init__.py")%string with
  | inr (File _) => true
  | _ => false
  end.

(** The first package on the way to the dotted name [comps] that cannot be
    imported, if any. *)
Fixpoint first_missing (fs : node) (site prefix : string) (comps : list string)
  : option string :=
  match comps with
  | [] => None
  | c :: rest =>
      let p := if is_empty prefix then c else (prefix ++ "." ++ c)%string in
      if is_package fs site p then first_missing fs site p rest else Some p
  end.

Definition site_find_spec (fs : node) (site name : string) : result (option ModuleSpec) :=
  match first_missing fs site "" (removelast (split_char "."%char name)) with
  | Some missing => Raise (ModuleNotFoundError missing)
  | None =>
      if is_package fs site name
      then Ok (Some {| origin := Some (dotted_path site name ++ "/__init__.py")%string |})
      else Ok None
  end.

Definition site_files (fs : node) (site name : string) : result PurePath :=
  match first_missing fs site "" (split_char "."%char name) with
  | Some missing => Raise (ModuleNotFoundError missing)
  | None => Ok (parse (dotted_path site name))
  end.

(** The codec of a UTF-8 locale, errors being strict: the code points of
    the well-formed sequences of one to four bytes, nothing for overlong
    forms, surrogates, stray continuation bytes and truncated sequences. *)
Definition continuation (a : ascii) : option N :=
  let n := N_of_ascii a in
  if ((128 <=? n) && (n <? 192))%N then Some (n - 128)%N else None.

Fixpoint utf8_decode (s : string) : option text :=
  match s with
  | EmptyString => Some []
  | String a s1 =>
      let n := N_of_ascii a in
      if (n <? 128)%N then
        match utf8_decode s1 with
        | Some t => Some (n :: t)
        | None => None
        end
      else if ((194 <=? n) && (n <? 224))%N then
        match s1 with
        | String b s2 =>
            match continuation b, utf8_decode s2 with
            | Some x, Some t => Some (((n - 192) * 64 + x)%N :: t)
            | _, _ => None
            end
        | _ => None
        end
      else if ((224 <=? n) && (n <? 240))%N then
        match s1 with
        | String b (String c s3) =>
            match continuation b, continuation c, utf8_decode s3 with
            | Some x, Some y, Some t =>
                let cp := ((n - 224) * 4096 + x * 64 + y)%N in
                if ((2048 <=? cp) && negb ((55296 <=? cp) && (cp <? 57344)))%N
                then Some (cp :: t) else None
            | _, _, _ => None
            end
        | _ => None
        end
      else if ((240 <=? n) && (n <? 245))%N then
        match s1 with
        | String b (String c (String d s4)) =>
            match continuation b, continuation c, continuation d, utf8_decode s4 with
            | Some x, Some y, Some z, Some t =>
                let cp := ((n - 240) * 262144 + x * 4096 + y * 64 + z)%N in
                if ((65536 <=? cp) && (cp <? 1114112))%N
                then Some (cp :: t) else None
            | _, _, _, _ => None
            end
        | _ => None
        end
      else None
  end.

(** A world whose module lives in [pkg/pymkm/io] and whose packages are
    imported from [site], in a UTF-8 locale. *)
Definition make_world (fs : node) (pkg site : string) : World :=
  {| fs_root := fs;
     getcwd := "/";
     module_file := (pkg ++ "/pymkm/io/data_registry.py")%string;
     find_spec := site_find_spec fs site;
     files := site_files fs site;
     decode := utf8_decode |}.

Definition carbon_txt : node :=
  File ("Ion=C" ++ String LF ("AtomicNumber=6" ++ String LF ("MassNumber=12"
        ++ String LF ("SourceProgram=Geant4" ++ String LF ("IonizationPotential=78.0"
        ++ String LF ("Target=Water" ++ String LF "1.0 2.0"))))))%string.

Definition carbon_no_target_txt : node :=
  File ("Ion=C" ++ String LF ("AtomicNumber=6" ++ String LF ("MassNumber=12"
        ++ String LF ("SourceProgram=Geant4" ++ String LF "IonizationPotential=78.0"))))%string.

(** The bytes of U+00A0, the no-break space, in UTF-8. *)
Definition NBSP_bytes : string :=
  String (ascii_of_nat 194) (String (ascii_of_nat 160) "").

(** A [carbon.txt] whose [Target] has a no-break space on either side. *)
Definition carbon_nbsp_txt : node :=
  File ("Ion=C" ++ String LF ("AtomicNumber=6" ++ String LF ("MassNumber=12"
        ++ String LF ("SourceProgram=Geant4" ++ String LF ("IonizationPotential=78.0"
        ++ String LF (NBSP_bytes ++ "Target" ++ NBSP_bytes ++ "=Water"))))))%string.

Definition DQ : ascii := ascii_of_nat 34.

Definition quote (s : string) : string := String DQ (s ++ String DQ "")%string.

Definition elements_json : string :=
  ("{" ++ quote "H" ++ ": {" ++ quote "Z" ++ ": 1}}")%string.

Definition init_py : string * node := ("__init__.py", File "").

(** A [pymkm] package tree with the given sources and lookup file. *)
Definition pymkm_tree (sources : list (string * node)) (data_files : list (string * node))
  : node :=
  Dir [("pymkm",
        Dir [init_py;
             ("io", Dir [init_py; ("data_registry.py", File "")]);
             ("data",
              Dir (init_py :: ("defaults", Dir (init_py :: sources)) :: data_files))])].

(** The scenario of the specification: one source with a marker and a
    well-formed [carbon.txt], and an unmarked directory beside it. *)
Definition fs_good : node :=
  Dir [("site",
        pymkm_tree
          [("geant4_11_3_0", Dir [init_py; ("carbon.txt", carbon_txt)]);
           ("scratch", Dir [("notes.txt", File "no header here")])]
          [("elements.json", File elements_json)])].

Definition w_good : World := make_world fs_good "/site" "/site".

(** Only the development tree holds the data: nothing can be imported from
    [/site], so the import system raises for every dotted name. *)
Definition fs_dev : node :=
  Dir [("dev",
        pymkm_tree
          [("geant4_11_3_0", Dir [init_py; ("carbon.txt", carbon_txt)])]
          [("elements.json", File elements_json)]);
       ("site", Dir [])].

Definition w_dev : World := make_world fs_dev "/dev" "/site".

(** The good tree under an interpreter whose [importlib.resources] has no
    [files]: the import statement in the [try] block raises. *)
Definition w_no_files : World :=
  {| fs_root := fs_good;
     getcwd := "/";
     module_file := "/site/pymkm/io/data_registry.py";
     find_spec := site_find_spec fs_good "/site";
     files := fun _ => Raise (OtherException "ImportError: cannot import name files");
     decode := utf8_decode |}.

(** Three marked sources; the second one has a [carbon.txt] without
    [Target]. *)
Definition fs_malformed : node :=
  Dir [("site",
        pymkm_tree
          [("fluka_2020_0", Dir [init_py; ("proton.txt", carbon_txt)]);
           ("geant4_11_3_0",
            Dir [init_py; ("helium.txt", carbon_txt);
                 ("carbon.txt", carbon_no_target_txt)]);
           ("mstar_3_12", Dir [init_py; ("oxygen.txt", carbon_txt)])]
          [])].

Definition w_malformed : World := make_world fs_malformed "/site" "/site".

(** Two malformed sources: the [carbon.txt] of the first has no [Target],
    the [carbon.txt] of the second nothing but a [Target]. *)
Definition fs_two_malformed : node :=
  Dir [("site",
        pymkm_tree
          [("fluka_2020_0", Dir [init_py; ("carbon.txt", carbon_no_target_txt)]);
           ("geant4_11_3_0", Dir [init_py; ("carbon.txt", File "Target=Water")])]
          [])].

Definition w_two_malformed : World := make_world fs_two_malformed "/site" "/site".

(** A marked source that holds a directory named [tables.txt], and after
    it a marked source whose [carbon.txt] has no [Target]. *)
Definition fs_blocked : node :=
  Dir [("site",
        pymkm_tree
          [("fluka_2020_0", Dir [init_py; ("tables.txt", Dir [])]);
           ("geant4_11_3_0", Dir [init_py; ("carbon.txt", carbon_no_target_txt)])]
          [])].

Definition w_blocked : World := make_world fs_blocked "/site" "/site".

(** One marked source whose [carbon.txt] pads [Target] with no-break
    spaces. *)
Definition fs_nbsp : node :=
  Dir [("site",
        pymkm_tree
          [("geant4_11_3_0", Dir [init_py; ("carbon.txt", carbon_nbsp_txt)])]
          [])].

Definition w_nbsp : World := make_world fs_nbsp "/site" "/site".

(** The installed package and the development tree are different
    directories: the installed lookup file is not JSON, the local one is. *)
Definition fs_split : node :=
  Dir [("site", pymkm_tree [] [("elements.json", File "not json")]);
       ("dev", pymkm_tree [] [("elements.json", File elements_json)])].

Definition w_split : World := make_world fs_split "/dev" "/site".

(** As [fs_split], without the local lookup file. *)
Definition fs_split_no_local : node :=
  Dir [("site", pymkm_tree [] [("elements.json", File "not json")]);
       ("dev", pymkm_tree [] [])].

Definition w_split_no_local : World := make_world fs_split_no_local "/dev" "/site".

Definition hydrogen : Json.value :=
  Json.Object [(to_text "H", Json.Object [(to_text "Z", Json.Int 1)])].

(** The registry root of the installed tier and the sources below it. *)
Definition defaults_dir : PurePath := mkPath "/" ["site"; "pymkm"; "data"; "defaults"].

Definition source_dir (n : string) : PurePath := child defaults_dir n.

(** The lines of the well-formed and of the malformed [carbon.txt]. *)
Definition carbon_lines : list text :=
  map to_text
    ["Ion=C" ++ String LF ""; "AtomicNumber=6" ++ String LF "";
     "MassNumber=12" ++ String LF ""; "SourceProgram=Geant4" ++ String LF "";
     "IonizationPotential=78.0" ++ String LF ""; "Target=Water" ++ String LF "";
     "1.0 2.0"]%string.

Definition carbon_no_target_lines : list text :=
  map to_text
    ["Ion=C" ++ String LF ""; "AtomicNumber=6" ++ String LF "";
     "MassNumber=12" ++ String LF ""; "SourceProgram=Geant4" ++ String LF "";
     "IonizationPotential=78.0"]%string.

(** An installation without its data directory: [pymkm] can be imported,
    [pymkm.data] cannot. *)
Definition fs_no_data : node :=
  Dir [("site",
        Dir [("pymkm",
              Dir [init_py; ("io", Dir [init_py; ("data_registry.py", File "")])])])].

Definition w_no_data : World := make_world fs_no_data "/site" "/site".

(** A marked source with a directory whose name ends in [.txt]. *)
Definition fs_txt_dir : node :=
  Dir [("site",
        pymkm_tree
          [("geant4_11_3_0", Dir [init_py; ("tables.txt", Dir [])])]
          [])].

Definition w_txt_dir : World := make_world fs_txt_dir "/site" "/site".

(** A marked source whose [carbon.txt] the process may not read. *)
Definition fs_unreadable : node :=
  Dir [("site",
        pymkm_tree
          [("geant4_11_3_0", Dir [init_py; ("carbon.txt", Unreadable)])]
          [])].

Definition w_unreadable : World := make_world fs_unreadable "/site" "/site".

(** A source directory that can be listed and not searched: the test for
    its marker is refused. *)
Definition fs_unsearchable : node :=
  Dir [("site",
        pymkm_tree
          [("geant4_11_3_0",
            Restricted true false [init_py; ("carbon.txt", carbon_txt)])]
          [])].

Definition w_unsearchable : World := make_world fs_unsearchable "/site" "/site".

(** A marked source whose [carbon.txt] is Latin-1 text with a micro sign,
    byte 181, which is not UTF-8. *)
Definition fs_latin1 : node :=
  Dir [("site",
        pymkm_tree
          [("geant4_11_3_0",
            Dir [init_py;
                 ("carbon.txt", File (String (ascii_of_nat 181) "m"))])]
          [])].

Definition w_latin1 : World := make_world fs_latin1 "/site" "/site".

End Examples.

Import Examples.

(** ** pymkm.mktable.plot

    The plotting method of [MKTable].  The table class lives in
    [pymkm.mktable.core] and the drawing is matplotlib's: the fields and
    methods of [self] that the method reads are a record, and the two
    stretches of numpy and matplotlib calls are parameters. *)

Module mktable_plot.

Inductive error : Type :=
| ValueError (msg : string)
| RuntimeError (msg : string)
| KeyError (key : string)
| CollaboratorError (msg : string).

Inductive outcome (A : Type) : Type :=
| Done (a : A)
| Fail (e : error).

Arguments Done {A} a.
Arguments Fail {A} e.

Definition and_then {A B : Type} (m : outcome A) (k : A -> outcome B) : outcome B :=
  match m with
  | Done a => k a
  | Fail e => Fail e
  end.

Notation "x <-- m ;; k" := (and_then m (fun x => k))
  (at level 61, m at next level, right associativity).

(** [x in s] for a set of strings. *)
Definition mem (x : string) (s : list string) : bool :=
  existsb (String.eqb x) s.

(** [sorted(s)] *)
Fixpoint insert (x : string) (l : list string) : list string :=
  match l with
  | [] => [x]
  | y :: t => if String.leb x y then x :: y :: t else y :: insert x t
  end.

Definition sorted (s : list string) : list string := fold_right insert [] s.

(** [repr] of a string without quotes, backslashes or control characters,
    and of a list of such strings. *)
Definition repr_str (s : string) : string := ("'" ++ s ++ "'")%string.

Definition repr_list (l : list string) : string :=
  ("[" ++ join_with ", " (map repr_str l) ++ "]")%string.

Definition allowed_x : list string := ["energy"; "let"].

Definition allowed_y : list string :=
  ["z_bar_star_domain"; "z_bar_domain"; "z_bar_nucleus"].

Definition _validate_plot_columns (x y : string) : outcome unit :=
  if negb (mem x allowed_x) then
    Fail (ValueError ("Invalid x-axis: '" ++ x ++ "'. Allowed values are: "
                        ++ repr_list (sorted allowed_x))%string)
  else if negb (mem y allowed_y) then
    Fail (ValueError ("Invalid y-axis: '" ++ y ++ "'. Allowed values are: "
                        ++ repr_list (sorted allowed_y))%string)
  else Done tt.

(** [d.get(k)] on a dictionary literal. *)
Fixpoint lookup (k : string) (d : list (string * string)) : option string :=
  match d with
  | [] => None
  | (k', v) :: rest => if String.eqb k' k then Some v else lookup k rest
  end.

Definition y_label_map : list (string * string) :=
  [("z_bar_star_domain", "$\bar{z}^{*}$ [Gy]");
   ("z_bar_domain", "$\bar{z}_{d}$ [Gy]");
   ("z_bar_nucleus", "$\bar{z}_{n}$ [Gy]")].

Definition x_label_map : list (string * string) :=
  [("energy", "Energy [MeV/u]"); ("let", "LET [MeV/cm]")].

Definition source_info_map : list (string * string) :=
  [("default:fluka_2020_0", "FLUKA 2020");
   ("default:geant4_11_3_0", "Geant4 11.3");
   ("default:mstar_3_12", "MSTAR 3.12")].

(** [str.upper] and [str.lower] on one ASCII character. *)
Definition upper (a : ascii) : ascii :=
  let n := nat_of_ascii a in
  if Nat.leb 97 n && Nat.leb n 122 then ascii_of_nat (n - 32) else a.

Definition lower (a : ascii) : ascii :=
  let n := nat_of_ascii a in
  if Nat.leb 65 n && Nat.leb n 90 then ascii_of_nat (n + 32) else a.

Fixpoint map_chars (f : ascii -> ascii) (s : string) : string :=
  match s with
  | EmptyString => EmptyString
  | String a s' => String (f a) (map_chars f s')
  end.

(** [s.capitalize()] *)
Definition capitalize (s : string) : string :=
  match s with
  | EmptyString => EmptyString
  | String a s' => String (upper a) (map_chars lower s')
  end.

(** [s.replace("_", " ")] *)
Definition underscores_to_spaces (s : string) : string :=
  map_chars (fun a => if Ascii.eqb a "_" then " "%char else a) s.

(** [x_label_map.get(x, x.capitalize())] *)
Definition x_label (x : string) : string :=
  match lookup x x_label_map with
  | Some l => l
  | None => capitalize x
  end.

(** [y_label_map.get(y, y.replace("_", " ").capitalize())] *)
Definition y_label (y : string) : string :=
  match lookup y y_label_map with
  | Some l => l
  | None => capitalize (underscores_to_spaces y)
  end.

(** ["log" if x == "energy" else "linear"] *)
Definition x_scale (x : string) : string :=
  if String.eqb x "energy" then "log" else "linear".

(** [[f(i) for i in l]], the first failure ending the comprehension. *)
Fixpoint map_outcome {A B : Type} (f : A -> outcome B) (l : list A) : outcome (list B) :=
  match l with
  | [] => Done []
  | a :: rest =>
      b <-- f a ;;
      bs <-- map_outcome f rest ;;
      Done (b :: bs)
  end.

Section Plot.

(** The per-ion results of a table, and the axis limits computed from
    them. *)
Variable frame : Type.
Variable limits : Type.

(** An ion identifier: a name or an atomic number. *)
Definition ion_id : Type := (string + Z)%type.

(** What [plot] reads of [self]. *)
Record MKTable : Type := mkTable {
  (** [self.table] *)
  table : list (string * frame);
  (** [self.sp_table_set.get_available_ions()] *)
  get_available_ions : outcome (list ion_id);
  (** [self.sp_table_set._map_to_fullname(ion)] *)
  _map_to_fullname : ion_id -> outcome string;
  (** [self.sp_table_set.source_info] *)
  source_info : string;
  (** [self.params.model_name] and [self.params.core_radius_type] *)
  model_name : string;
  core_radius_type : string
}.

(** Lines 92 to 100: the extent of the data of the chosen ions. *)
Variable axis_limits : MKTable -> list string -> string -> string -> outcome limits.

(** Lines 104 to 140: the figure, drawn and shown. *)
Variable draw :
  MKTable -> list string -> string -> string -> bool -> limits ->
  string -> string -> string -> string -> outcome unit.

(** The title of line 102. *)
Definition plot_title (self : MKTable) : outcome string :=
  match lookup (source_info self) source_info_map with
  | Some src =>
      Done ("Source: " ++ src ++ ", Track model: " ++ model_name self
              ++ " (Core: " ++ core_radius_type self ++ ")")%string
  | None => Fail (KeyError (source_info self))
  end.

(** [ions or self.sp_table_set.get_available_ions()] *)
Definition chosen_ions (self : MKTable) (ions : option (list ion_id))
  : outcome (list ion_id) :=
  match ions with
  | Some (i :: rest) => Done (i :: rest)
  | _ => get_available_ions self
  end.

Definition plot (self : MKTable) (ions : option (list ion_id))
    (x y : string) (verbose : bool) : outcome unit :=
  match table self with
  | [] =>
      Fail (RuntimeError
              "No computed results found. Please run 'compute()' before plotting.")
  | _ :: _ =>
      ions0 <-- chosen_ions self ions ;;
      ions1 <-- map_outcome (_map_to_fullname self) ions0 ;;
      _ <-- _validate_plot_columns x y ;;
      lims <-- axis_limits self ions1 x y ;;
      plot_title1 <-- plot_title self ;;
      draw self ions1 x y verbose lims plot_title1 (x_label x) (y_label y) (x_scale x)
  end.

End Plot.

Arguments table {frame} m.
Arguments get_available_ions {frame} m.
Arguments _map_to_fullname {frame} m i.
Arguments source_info {frame} m.
Arguments model_name {frame} m.
Arguments core_radius_type {frame} m.
Arguments mkTable {frame}.
Arguments plot_title {frame} self.
Arguments chosen_ions {frame} self ions.
Arguments plot {frame limits} axis_limits draw self ions x y verbose.

(** A table with one computed ion, for the examples. *)
Definition carbon_table (src : string) : MKTable unit :=
  mkTable [("Carbon", tt)]
    (Done [inl "C"])
    (fun i => match i with
              | inl "C" => Done "Carbon"
              | inl other => Fail (CollaboratorError other)
              | inr _ => Fail (CollaboratorError "atomic number")
              end)
    src "Kiefer-Chatterjee" "energy-dependent".

End mktable_plot.


(** ** Vocabulary of the further properties *)

(** The key a line puts into the header: the stripped text before its
    first ["="], when the line has one. *)
Definition declared_key (line : text) : option text :=
  if text_contains EQUALS line
  then Some (strip (nth 0 (text_split EQUALS line) []))
  else None.

(** Some line puts the key [k] into the header. *)
Definition declares_b (k : text) (line : text) : bool :=
  match declared_key line with
  | Some k' => text_eqb k' k
  | None => false
  end.

(** The test of the comprehension over the entries of the root. *)
Definition is_dir_b (w : World) (e : PurePath) : bool :=
  match is_dir w e with
  | Ok true => true
  | _ => false
  end.

(** * Properties *)

(** ** Strings and paths *)

Section StringFacts.

Lemma string_app_assoc (a b c : string) : ((a ++ b) ++ c = a ++ (b ++ c))%string.
Proof. induction a as [|x a IH]; simpl; [reflexivity | now rewrite IH]. Qed.

Lemma string_app_empty_r (a : string) : (a ++ "")%string = a.
Proof. induction a as [|x a IH]; simpl; [reflexivity | now rewrite IH]. Qed.

Lemma is_empty_app (a b : string) :
  is_empty (a ++ b)%string = is_empty a && is_empty b.
Proof. destruct a; reflexivity. Qed.

Lemma split_char_not_nil (c : ascii) (s : string) : split_char c s <> [].
Proof.
  destruct s as [|a s]; simpl; [discriminate|].
  destruct (Ascii.eqb a c); [discriminate|].
  destruct (split_char c s); discriminate.
Qed.

Lemma split_char_absent (c : ascii) (f : string) :
  contains_char c f = false -> split_char c f = [f].
Proof.
  induction f as [|a f IH]; simpl; intros H; [reflexivity|].
  apply orb_false_iff in H. destruct H as [Ha Hf].
  rewrite Ha, (IH Hf). reflexivity.
Qed.

Lemma split_char_app (c : ascii) (a b : string) :
  split_char c (a ++ String c b)%string = split_char c a ++ split_char c b.
Proof.
  induction a as [|x a IH]; simpl.
  - now rewrite Ascii.eqb_refl.
  - rewrite IH. destruct (Ascii.eqb x c); [reflexivity|].
    pose proof (split_char_not_nil c a) as Hne.
    destruct (split_char c a); [contradiction | reflexivity].
Qed.

Lemma rpartition_absent (c : ascii) (f : string) :
  contains_char c f = false -> rpartition c f = None.
Proof.
  induction f as [|a f IH]; simpl; intros H; [reflexivity|].
  apply orb_false_iff in H. destruct H as [Ha Hf].
  now rewrite (IH Hf), Ha.
Qed.

Lemma rpartition_app (c : ascii) (q f : string) :
  contains_char c f = false ->
  rpartition c (q ++ String c f)%string = Some (q, f).
Proof.
  intros Hf. induction q as [|x q IH]; simpl.
  - now rewrite (rpartition_absent _ _ Hf), Ascii.eqb_refl.
  - now rewrite IH.
Qed.

Lemma ends_with_sep_snoc (q : string) : ends_with_sep (q ++ String sep "")%string = true.
Proof.
  induction q as [|x q IH]; [reflexivity|].
  simpl. destruct (q ++ String sep "")%string eqn:E; [|exact IH].
  destruct q; discriminate.
Qed.

Lemma ends_with_sep_inv (s : string) :
  ends_with_sep s = true -> exists q, s = (q ++ String sep "")%string.
Proof.
  induction s as [|a s IH]; simpl; [discriminate|].
  destruct s as [|b s].
  - intros H. apply Ascii.eqb_eq in H. subst a. now exists "".
  - intros H. destruct (IH H) as [q Hq]. exists (String a q). simpl. now rewrite Hq.
Qed.

Lemma ends_with_sep_app (a b : string) :
  is_empty b = false -> ends_with_sep (a ++ b)%string = ends_with_sep b.
Proof.
  intros Hb. induction a as [|x a IH]; [reflexivity|].
  simpl. destruct (a ++ b)%string eqn:E; [|exact IH].
  destruct a; simpl in E; [subst b|]; discriminate.
Qed.

End StringFacts.

Section PathFacts.

Lemma is_file_name_inv (f : string) :
  is_file_name f = true ->
  is_empty f = false /\ contains_char sep f = false
  /\ String.eqb f "." = false /\ String.eqb f ".." = false.
Proof.
  unfold is_file_name. intros H.
  repeat (apply andb_true_iff in H; destruct H as [H ?]).
  repeat split; now apply negb_true_iff.
Qed.

Lemma file_name_not_absolute (f : string) :
  contains_char sep f = false -> starts_with_sep f = false.
Proof.
  destruct f as [|a f]; simpl; [reflexivity|].
  intros H. now apply orb_false_iff in H.
Qed.

Lemma sep_closed_app (a q : string) : sep_closed a -> sep_closed q -> sep_closed (a ++ q)%string.
Proof.
  intros Ha [->|Hq].
  - now rewrite string_app_empty_r.
  - right. rewrite ends_with_sep_app; [exact Hq|]. now destruct q.
Qed.

Lemma basename_closed (q f : string) :
  sep_closed q -> contains_char sep f = false ->
  posixpath.basename (q ++ f)%string = f.
Proof.
  intros [->|Hq] Hf; unfold posixpath.basename.
  - simpl. now rewrite (rpartition_absent _ _ Hf).
  - destruct (ends_with_sep_inv _ Hq) as [q0 ->].
    rewrite string_app_assoc. simpl. now rewrite (rpartition_app _ _ _ Hf).
Qed.

(** Joining a file name onto any path appends it as the last segment. *)
Lemma join2_file_name (a f : string) :
  contains_char sep f = false ->
  exists q, sep_closed q /\ posixpath.join2 a f = (q ++ f)%string.
Proof.
  intros Hf. unfold posixpath.join2.
  rewrite (file_name_not_absolute _ Hf). simpl.
  destruct (is_empty a) eqn:Ea.
  - exists "". split; [now left | reflexivity].
  - destruct (ends_with_sep a) eqn:Es.
    + exists a. split; [now right | reflexivity].
    + exists (a ++ String sep "")%string. split.
      * right. apply ends_with_sep_snoc.
      * now rewrite string_app_assoc.
Qed.

Lemma join2_closed (a q f : string) :
  sep_closed q ->
  exists q', sep_closed q' /\ posixpath.join2 a (q ++ f)%string = (q' ++ f)%string.
Proof.
  intros Hq. unfold posixpath.join2.
  destruct (starts_with_sep (q ++ f) || is_empty a).
  - now exists q.
  - destruct (ends_with_sep a) eqn:Es.
    + exists (a ++ q)%string. split; [|now rewrite string_app_assoc].
      apply sep_closed_app; [now right | exact Hq].
    + exists ((a ++ String sep "") ++ q)%string. split.
      * apply sep_closed_app; [right; apply ends_with_sep_snoc | exact Hq].
      * now rewrite !string_app_assoc.
Qed.

Lemma split_closed (q f : string) :
  sep_closed q -> contains_char sep f = false ->
  exists cs, split_char sep (q ++ f)%string = cs ++ [f].
Proof.
  intros [->|Hq] Hf.
  - exists []. simpl. now apply split_char_absent.
  - destruct (ends_with_sep_inv _ Hq) as [q0 ->].
    exists (split_char sep q0).
    rewrite string_app_assoc. simpl.
    now rewrite split_char_app, (split_char_absent _ _ Hf).
Qed.

Lemma norm_step_file_name (n : nat) (cs : list string) (f : string) :
  is_file_name f = true -> posixpath.norm_step n cs f = cs ++ [f].
Proof.
  intros H. apply is_file_name_inv in H. destruct H as (He & _ & Hd & Hdd).
  unfold posixpath.norm_step.
  assert (String.eqb f "" = false) as E0 by (destruct f; [discriminate | reflexivity]).
  now rewrite E0, Hd, Hdd.
Qed.

Lemma join_with_snoc (cs : list string) (f : string) :
  exists r, sep_closed r /\ join_with "/" (cs ++ [f]) = (r ++ f)%string.
Proof.
  induction cs as [|x cs IH].
  - exists "". split; [now left | reflexivity].
  - destruct IH as (r & Hr & E).
    exists ((x ++ "/") ++ r)%string. split.
    + apply sep_closed_app; [|exact Hr].
      right. apply (ends_with_sep_snoc x).
    + change ((x :: cs) ++ [f]) with (x :: (cs ++ [f])).
      simpl. rewrite E. destruct (cs ++ [f]) eqn:Ecs.
      * destruct cs; discriminate.
      * now rewrite !string_app_assoc.
Qed.

Lemma repeat_sep_closed (n : nat) : sep_closed (posixpath.repeat_sep n).
Proof.
  destruct n as [|n]; [now left|]. right.
  induction n as [|n IH]; [reflexivity|].
  change (posixpath.repeat_sep (S (S n))) with (String sep (posixpath.repeat_sep (S n))).
  simpl in *. exact IH.
Qed.

(** Normalisation keeps a final file name as the terminal segment. *)
Lemma normpath_file_name (q f : string) :
  sep_closed q -> is_file_name f = true ->
  exists r, sep_closed r /\ posixpath.normpath (q ++ f)%string = (r ++ f)%string.
Proof.
  intros Hq Hf.
  destruct (is_file_name_inv _ Hf) as (He & Hs & _ & _).
  unfold posixpath.normpath.
  rewrite is_empty_app, He, andb_false_r.
  destruct (split_closed q f Hq Hs) as [cs Hcs].
  set (n := posixpath.count_initial_slashes (q ++ f)).
  rewrite Hcs.
  rewrite fold_left_app. simpl.
  rewrite (norm_step_file_name _ _ _ Hf).
  destruct (join_with_snoc (fold_left (posixpath.norm_step n) cs []) f)
    as (r & Hr & ->).
  rewrite <- string_app_assoc, is_empty_app, He, andb_false_r.
  eexists. split; [|reflexivity].
  apply sep_closed_app; [apply repeat_sep_closed | exact Hr].
Qed.

End PathFacts.

(** ** The location resolver *)

Section Resolver.

Variable w : World.
Variables source filename : string.

Lemma installed_txt_path_spec :
  try_except (installed_txt_path w source filename) (fun _ => Ok None)
  = Ok (if in_installed_tier w source filename
        then installed_candidate w source filename else None).
Proof.
  unfold installed_txt_path, in_installed_tier, installed_candidate, installed_source_dir.
  destruct (find_spec w _) as [[sp|]|e]; simpl; try reflexivity.
  destruct (origin sp) as [o|]; simpl; [|reflexivity].
  now destruct (path_exists w _).
Qed.

(** The resolver as a two-way choice between the tiers. *)
Lemma get_default_txt_path_cases :
  get_default_txt_path w source filename =
  match (if in_installed_tier w source filename
         then installed_candidate w source filename else None) with
  | Some full_path => Ok full_path
  | None =>
      if in_local_tier w source filename
      then Ok (local_txt_path w source filename)
      else Raise (FileNotFoundError (not_found_message source filename))
  end.
Proof.
  unfold get_default_txt_path. rewrite installed_txt_path_spec. reflexivity.
Qed.

Lemma local_txt_path_basename :
  is_file_name filename = true ->
  posixpath.basename (local_txt_path w source filename) = filename.
Proof.
  intros Hf. destruct (is_file_name_inv _ Hf) as (_ & Hs & _ & _).
  unfold local_txt_path, posixpath.abspath, posixpath.join. simpl.
  match goal with
  | |- context [posixpath.join2 ?a filename] =>
      destruct (join2_file_name a filename Hs) as (q & Hq & ->)
  end.
  assert (exists q', sep_closed q' /\
            (if posixpath.isabs (q ++ filename)
             then (q ++ filename)%string
             else posixpath.join2 (getcwd w) (q ++ filename))
            = (q' ++ filename)%string) as (q' & Hq' & ->).
  { destruct (posixpath.isabs (q ++ filename)); [now exists q|].
    now apply join2_closed. }
  destruct (normpath_file_name q' filename Hq' Hf) as (r & Hr & ->).
  now apply basename_closed.
Qed.

Lemma installed_candidate_basename (p : string) :
  is_file_name filename = true ->
  installed_candidate w source filename = Some p ->
  posixpath.basename p = filename.
Proof.
  intros Hf. destruct (is_file_name_inv _ Hf) as (_ & Hs & _ & _).
  unfold installed_candidate.
  destruct (installed_source_dir w source) as [d|]; [|discriminate].
  intros [= <-]. unfold posixpath.join. simpl.
  destruct (join2_file_name d filename Hs) as (q & Hq & ->).
  now apply basename_closed.
Qed.

End Resolver.

Lemma occurs_in_intro (pre needle post : string) :
  occurs_in needle (pre ++ needle ++ post)%string.
Proof. now exists pre, post. Qed.

(** C4. Whatever the probe of the installed tier raises, the resolver
    surfaces no error but its own NotFound and answers as if the import
    system had found nothing; when the file is in neither tier it fails
    with a NotFound error whose message names the file and the source. *)
Theorem get_default_txt_path_not_found (w : World) (source filename : string) :
  (forall e, get_default_txt_path w source filename = Raise e ->
             e = FileNotFoundError (not_found_message source filename))
  /\ (forall e, find_spec w ("pymkm.data.defaults." ++ source)%string = Raise e ->
        get_default_txt_path w source filename
        = get_default_txt_path (with_find_spec w (fun _ => Ok None)) source filename)
  /\ (in_installed_tier w source filename = false ->
      in_local_tier w source filename = false ->
      get_default_txt_path w source filename
      = Raise (FileNotFoundError (not_found_message source filename)))
  /\ occurs_in filename (not_found_message source filename)
  /\ occurs_in source (not_found_message source filename).
Proof.
  repeat split.
  - intros e. rewrite get_default_txt_path_cases.
    destruct (in_installed_tier w source filename).
    + destruct (installed_candidate w source filename); [discriminate|].
      destruct (in_local_tier w source filename); [discriminate|]. now intros [= <-].
    + destruct (in_local_tier w source filename); [discriminate|]. now intros [= <-].
  - intros e He. unfold get_default_txt_path, installed_txt_path.
    rewrite He. reflexivity.
  - intros Hi Hl. rewrite get_default_txt_path_cases, Hi, Hl. reflexivity.
  - apply occurs_in_intro.
  - unfold not_found_message.
    exists ("Cannot find file '" ++ filename ++ "' for source '")%string, "'".
    now rewrite !string_app_assoc.
Qed.

(** C5. A file name present in at least one tier resolves to a path that
    exists and ends in that file name; the installed tier wins when it has
    the file. *)
Theorem get_default_txt_path_found (w : World) (source filename : string) :
  is_file_name filename = true ->
  in_installed_tier w source filename = true \/ in_local_tier w source filename = true ->
  exists p,
    get_default_txt_path w source filename = Ok p
    /\ path_exists w p = true
    /\ posixpath.basename p = filename
    /\ (in_installed_tier w source filename = true ->
        installed_candidate w source filename = Some p)
    /\ (in_installed_tier w source filename = false ->
        p = local_txt_path w source filename).
Proof.
  intros Hf Hin. rewrite get_default_txt_path_cases.
  destruct (in_installed_tier w source filename) eqn:Hi.
  - unfold in_installed_tier in Hi.
    destruct (installed_candidate w source filename) as [p|] eqn:Hc; [|discriminate].
    exists p. repeat split; try assumption; try discriminate.
    now apply (installed_candidate_basename w source filename).
  - destruct Hin as [Hin|Hl]; [discriminate|]. rewrite Hl.
    exists (local_txt_path w source filename). repeat split; try assumption; try discriminate.
    now apply local_txt_path_basename.
Qed.

(** ** The empty file name *)

Section TrailingSeparator.

Lemma walk_app (fs : node) (l1 l2 : list string) :
  forall stack,
    walk fs stack (l1 ++ l2) =
    match walk fs stack l1 with
    | inr stack' => walk fs stack' l2
    | inl e => inl e
    end.
Proof.
  induction l1 as [|c l1 IH]; intros stack; simpl; [reflexivity|].
  destruct (searchable_entries (hd fs stack) c) as [e|entries]; [reflexivity|].
  destruct (String.eqb c "" || String.eqb c "."); [apply IH|].
  destruct (String.eqb c ".."); [apply IH|].
  destruct (lookup_entry c entries); [apply IH | reflexivity].
Qed.

Lemma starts_with_sep_app (a b : string) :
  is_empty a = false -> starts_with_sep (a ++ b)%string = starts_with_sep a.
Proof. destruct a; [discriminate | reflexivity]. Qed.

(** A directory is reached with or without a trailing separator. *)
Lemma resolve_trailing_sep (fs : node) (cwd d : string) (n : node) :
  is_directory n = true ->
  resolve fs cwd d = inr n ->
  resolve fs cwd (d ++ String sep "")%string = inr n.
Proof.
  intros Hn.
  unfold resolve. destruct (is_empty d) eqn:Ed; [discriminate|].
  rewrite is_empty_app, Ed. simpl.
  unfold posixpath.isabs. rewrite (starts_with_sep_app d _ Ed).
  rewrite split_char_app. simpl split_char at 2.
  destruct (if starts_with_sep d then inr [] else walk fs [] (split_char sep cwd))
    as [e|stack]; [trivial|].
  rewrite walk_app.
  destruct (walk fs stack (split_char sep d)) as [e|st]; [trivial|].
  intros [= H]. simpl. rewrite H.
  destruct n as [c| |entries|r x entries]; try discriminate Hn; simpl.
  - now rewrite H.
  - rewrite orb_true_r. now rewrite H.
Qed.

Lemma count_initial_slashes_trailing (x : string) :
  is_empty x = false -> ends_with_sep x = false ->
  posixpath.count_initial_slashes (x ++ String sep "")%string
  = posixpath.count_initial_slashes x.
Proof.
  destruct x as [|a [|b [|c x]]]; simpl; intros He H.
  - discriminate.
  - now rewrite H.
  - rewrite H. destruct (Ascii.eqb a sep); reflexivity.
  - reflexivity.
Qed.

Lemma normpath_trailing (x : string) :
  is_empty x = false -> ends_with_sep x = false ->
  posixpath.normpath (x ++ String sep "")%string = posixpath.normpath x.
Proof.
  intros He Hs. unfold posixpath.normpath.
  rewrite is_empty_app, He, (count_initial_slashes_trailing x He Hs). simpl.
  rewrite split_char_app, fold_left_app. reflexivity.
Qed.

Lemma join2_nonempty (a b : string) :
  is_empty b = false -> is_empty (posixpath.join2 a b) = false.
Proof.
  intros Hb. unfold posixpath.join2.
  destruct (starts_with_sep b || is_empty a); [exact Hb|].
  destruct (ends_with_sep a); rewrite is_empty_app.
  - now rewrite Hb, andb_false_r.
  - now rewrite andb_false_r.
Qed.

Lemma join2_nonempty_l (a b : string) :
  is_empty a = false -> is_empty (posixpath.join2 a b) = false.
Proof.
  intros Ha. unfold posixpath.join2. rewrite Ha, orb_false_r.
  destruct (starts_with_sep b) eqn:Eb; [now destruct b|].
  destruct (ends_with_sep a); now rewrite is_empty_app, Ha.
Qed.

(** Joining the empty name adds at most a trailing separator, which
    [abspath] removes again. *)
Lemma abspath_join_empty (cwd x : string) :
  is_empty x = false ->
  posixpath.abspath cwd (posixpath.join2 x "") = posixpath.abspath cwd x.
Proof.
  intros Hx. unfold posixpath.join2 at 1. simpl. rewrite Hx.
  destruct (ends_with_sep x) eqn:Es; [now rewrite string_app_empty_r|].
  unfold posixpath.abspath, posixpath.isabs.
  rewrite (starts_with_sep_app x _ Hx).
  destruct (starts_with_sep x) eqn:Ea.
  - now apply normpath_trailing.
  - unfold posixpath.join2. rewrite (starts_with_sep_app x _ Hx), Ea. simpl.
    destruct (is_empty cwd) eqn:Ec; [now apply normpath_trailing|].
    assert (forall pre, is_empty (pre ++ x) = false /\ ends_with_sep (pre ++ x) = false) as Hpre.
    { intros pre. split.
      - now rewrite is_empty_app, Hx, andb_false_r.
      - now rewrite ends_with_sep_app. }
    destruct (ends_with_sep cwd).
    + rewrite <- string_app_assoc. apply normpath_trailing; apply Hpre.
    + change (cwd ++ String sep (x ++ String sep ""))%string
        with (cwd ++ (String sep "" ++ x) ++ String sep "")%string.
      change (cwd ++ String sep x)%string with (cwd ++ String sep "" ++ x)%string.
      rewrite <- !string_app_assoc. apply normpath_trailing; apply Hpre.
Qed.

Lemma local_txt_path_empty (w : World) (source : string) :
  local_txt_path w source "" = local_source_dir w source.
Proof.
  unfold local_txt_path, local_source_dir, posixpath.join. simpl.
  apply abspath_join_empty.
  destruct (is_empty source) eqn:Es.
  - apply join2_nonempty_l, join2_nonempty. reflexivity.
  - now apply join2_nonempty.
Qed.

End TrailingSeparator.

(** C10. With an empty file name the resolver answers with the source
    directory itself: in the installed tier the directory of the origin
    with the separator the join leaves behind, which the file system
    resolves to that same directory; in the local tier the normalised
    directory path. *)
Theorem get_default_txt_path_empty_filename (w : World) (source : string) :
  (forall d, installed_source_dir w source = Some d ->
             isdir w d = true ->
             get_default_txt_path w source "" = Ok (posixpath.join d [""])
             /\ stat w (posixpath.join d [""]) = stat w d
             /\ (posixpath.join d [""] = d
                 \/ posixpath.join d [""] = (d ++ String sep "")%string))
  /\ (in_installed_tier w source "" = false ->
      isdir w (local_source_dir w source) = true ->
      get_default_txt_path w source "" = Ok (local_source_dir w source)).
Proof.
  split.
  - intros d Hd Hdir.
    assert (stat w (posixpath.join d [""]) = stat w d
            /\ (posixpath.join d [""] = d
                \/ posixpath.join d [""] = (d ++ String sep "")%string)) as [Hst Hj].
    { unfold isdir in Hdir. unfold posixpath.join, posixpath.join2. simpl.
      destruct (stat w d) as [e|n] eqn:Hs; [discriminate|].
      assert (is_empty d = false) as Hne.
      { destruct d; [|reflexivity]. discriminate Hs. }
      rewrite Hne. destruct (ends_with_sep d).
      - rewrite string_app_empty_r. split; [exact Hs | now left].
      - split; [|now right]. unfold stat in *. now apply resolve_trailing_sep. }
    repeat split; try assumption.
    rewrite get_default_txt_path_cases.
    unfold in_installed_tier, installed_candidate. rewrite Hd.
    unfold path_exists. rewrite Hst.
    unfold isdir in Hdir. destruct (stat w d) as [e|n]; [discriminate | reflexivity].
  - intros Hi Hdir. rewrite get_default_txt_path_cases, Hi.
    unfold in_local_tier. rewrite local_txt_path_empty.
    unfold path_exists. unfold isdir in Hdir.
    destruct (stat w (local_source_dir w source)); [discriminate | reflexivity].
Qed.

(** ** The source enumerator *)
(** ** Header lines *)

Section Text.

Lemma text_eqb_eq (a b : text) : text_eqb a b = true <-> a = b.
Proof.
  revert b. induction a as [|x a IH]; intros [|y b]; simpl;
    try (split; [discriminate | discriminate]); [tauto|].
  rewrite andb_true_iff, N.eqb_eq, IH.
  split; [intros [-> ->]; reflexivity | intros [= -> ->]; split; reflexivity].
Qed.

Lemma text_eqb_refl (a : text) : text_eqb a a = true.
Proof. now apply text_eqb_eq. Qed.

Lemma to_text_app (a b : string) : to_text (a ++ b)%string = to_text a ++ to_text b.
Proof.
  unfold to_text. induction a as [|x a IH]; simpl; [reflexivity|].
  now rewrite IH.
Qed.

Lemma to_text_inj (a b : string) : to_text a = to_text b -> a = b.
Proof.
  unfold to_text. revert b.
  induction a as [|x a IH]; intros [|y b]; simpl; intros H;
    try discriminate H; [reflexivity|].
  injection H as Hx Hr. f_equal.
  - rewrite <- (ascii_N_embedding x), <- (ascii_N_embedding y). now rewrite Hx.
  - now apply IH.
Qed.

Lemma text_contains_In (c : N) (t : text) : text_contains c t = true <-> In c t.
Proof.
  induction t as [|a t IH]; simpl; [split; [discriminate | tauto]|].
  rewrite orb_true_iff, N.eqb_eq, IH. tauto.
Qed.

Lemma text_split_nonempty (c : N) (t : text) : text_split c t <> [].
Proof.
  induction t as [|a t IH]; simpl; [discriminate|].
  destruct (N.eqb a c); [discriminate|].
  destruct (text_split c t); discriminate.
Qed.

(** The first part of a split is what stands before the first separator. *)
Lemma text_split_first (c : N) (pre rest : text) :
  ~ In c pre -> nth 0 (text_split c (pre ++ c :: rest)) [] = pre.
Proof.
  induction pre as [|a pre IH]; simpl; intros Hc.
  - now rewrite N.eqb_refl.
  - destruct (N.eqb a c) eqn:E; [apply N.eqb_eq in E; tauto|].
    assert (~ In c pre) as Hpre by tauto. specialize (IH Hpre).
    destruct (text_split c (pre ++ c :: rest)) as [|h tl] eqn:Es.
    + now apply text_split_nonempty in Es.
    + simpl in IH. simpl. now rewrite IH.
Qed.

Lemma text_first_occurrence (c : N) (t : text) :
  In c t -> exists pre rest, t = pre ++ c :: rest /\ ~ In c pre.
Proof.
  induction t as [|a t IH]; simpl; [tauto|]. intros H.
  destruct (N.eqb a c) eqn:E.
  - apply N.eqb_eq in E. subst a. exists [], t. simpl. tauto.
  - assert (a <> c) as Hac by now apply N.eqb_neq.
    destruct H as [H|H]; [contradiction|].
    destruct (IH H) as (pre & rest & -> & Hpre).
    exists (a :: pre), rest. split; [reflexivity|]. simpl. tauto.
Qed.

Lemma blank_app (a b : text) : blank a -> blank b -> blank (a ++ b).
Proof. unfold blank. intros Ha Hb. apply Forall_app. now split. Qed.

Lemma blank_no_equals (pad : text) : blank pad -> ~ In EQUALS pad.
Proof.
  unfold blank. rewrite Forall_forall. intros H Hin.
  specialize (H _ Hin). discriminate H.
Qed.

Lemma lstrip_blank (pad : text) : blank pad -> lstrip pad = [].
Proof.
  induction 1 as [|a pad Ha _ IH]; simpl; [reflexivity|]. now rewrite Ha.
Qed.

Lemma lstrip_blank_app (pad x : text) : blank pad -> lstrip (pad ++ x) = lstrip x.
Proof.
  induction 1 as [|a pad Ha _ IH]; simpl; [reflexivity|]. now rewrite Ha.
Qed.

Lemma rstrip_blank (pad : text) : blank pad -> rstrip pad = [].
Proof.
  induction 1 as [|a pad Ha _ IH]; simpl; [reflexivity|]. now rewrite IH, Ha.
Qed.

Lemma rstrip_app_blank (x pad : text) : blank pad -> rstrip (x ++ pad) = rstrip x.
Proof.
  intros H. induction x as [|a x IH]; simpl.
  - now apply rstrip_blank.
  - now rewrite IH.
Qed.

Lemma hd_error_rev_cons (a : N) (x : text) :
  x <> [] -> hd_error (rev (a :: x)) = hd_error (rev x).
Proof.
  intros Hx. simpl. destruct (rev x) as [|b r] eqn:E; [|reflexivity].
  apply (f_equal (@rev N)) in E. rewrite rev_involutive in E. contradiction.
Qed.

(** Text that does not end in white space is its own right strip. *)
Lemma rstrip_last (x : text) :
  (forall c, hd_error (rev x) = Some c -> is_space c = false) -> rstrip x = x.
Proof.
  induction x as [|a x IH]; [reflexivity|]. intros H.
  destruct x as [|b x].
  - simpl. rewrite (H a eq_refl). reflexivity.
  - assert (b :: x <> []) as Hne by discriminate.
    rewrite (hd_error_rev_cons a _ Hne) in H.
    change (rstrip (a :: b :: x))
      with (if is_space a && is_nil (rstrip (b :: x)) then [] else a :: rstrip (b :: x)).
    rewrite (IH H). simpl. now rewrite andb_false_r.
Qed.

Lemma lstrip_decompose (x : text) :
  exists pad,
    x = pad ++ lstrip x /\ blank pad
    /\ forall c, hd_error (lstrip x) = Some c -> is_space c = false.
Proof.
  induction x as [|a x (pad & Hx & Hpad & Hhd)]; simpl.
  - exists []. repeat split; [constructor | discriminate].
  - destruct (is_space a) eqn:Ea.
    + exists (a :: pad). simpl. rewrite <- Hx.
      repeat split; [now constructor | exact Hhd].
    + exists []. repeat split; [constructor|].
      simpl. now intros c [= <-].
Qed.

Lemma rstrip_decompose (x : text) :
  exists pad,
    x = rstrip x ++ pad /\ blank pad
    /\ forall c, hd_error (rev (rstrip x)) = Some c -> is_space c = false.
Proof.
  induction x as [|a x (pad & Hx & Hpad & Hlast)]; simpl.
  - exists []. repeat split; [constructor | discriminate].
  - destruct (is_space a && is_nil (rstrip x)) eqn:E.
    + apply andb_true_iff in E. destruct E as [Ea En].
      destruct (rstrip x) as [|b r]; [|discriminate En]. simpl in Hx. subst pad.
      exists (a :: x). simpl.
      repeat split; [now constructor | discriminate].
    + exists pad. simpl. rewrite <- Hx. repeat split; [exact Hpad|].
      destruct (rstrip x) as [|b r] eqn:Er.
      * simpl. intros c [= <-]. simpl in E. now rewrite andb_true_r in E.
      * assert (b :: r <> []) as Hne by discriminate.
        change (rev (b :: r) ++ [a]) with (rev (a :: b :: r)).
        rewrite (hd_error_rev_cons a _ Hne). exact Hlast.
Qed.

Lemma rstrip_hd (x : text) (c : N) :
  hd_error (rstrip x) = Some c -> hd_error x = Some c.
Proof.
  destruct x as [|a x]; simpl; [trivial|].
  destruct (is_space a && is_nil (rstrip x)); simpl; [discriminate | trivial].
Qed.

Lemma rstrip_incl (x : text) (c : N) : In c (rstrip x) -> In c x.
Proof.
  destruct (rstrip_decompose x) as (pad & Hx & _). intros H.
  rewrite Hx. apply in_or_app. now left.
Qed.

Lemma lstrip_incl (x : text) (c : N) : In c (lstrip x) -> In c x.
Proof.
  destruct (lstrip_decompose x) as (pad & Hx & _). intros H.
  rewrite Hx. apply in_or_app. now right.
Qed.

(** White space around trimmed text is what [strip] removes. *)
Lemma strip_padded (pad1 k pad2 : text) :
  blank pad1 -> blank pad2 -> trimmed k -> strip (pad1 ++ k ++ pad2) = k.
Proof.
  intros H1 H2 Hk. unfold strip. rewrite (lstrip_blank_app pad1 _ H1).
  destruct k as [|a k].
  - simpl. now rewrite (lstrip_blank pad2 H2).
  - assert (is_space a = false) as Ha by (apply Hk; now left).
    simpl. rewrite Ha.
    change (a :: k ++ pad2) with ((a :: k) ++ pad2).
    rewrite (rstrip_app_blank _ pad2 H2). apply rstrip_last.
    intros c Hc. apply Hk. now right.
Qed.

(** Every text is its strip with white space on either side. *)
Lemma strip_decompose (x : text) :
  exists pad1 pad2,
    x = pad1 ++ strip x ++ pad2 /\ blank pad1 /\ blank pad2 /\ trimmed (strip x).
Proof.
  destruct (lstrip_decompose x) as (pad1 & Hx & H1 & Hhd).
  destruct (rstrip_decompose (lstrip x)) as (pad2 & Hl & H2 & Hlast).
  exists pad1, pad2. unfold strip. rewrite <- Hl.
  repeat split; try assumption.
  intros c [Hc|Hc].
  - apply Hhd. now apply rstrip_hd.
  - now apply Hlast.
Qed.

Lemma strip_incl (x : text) (c : N) : In c (strip x) -> In c x.
Proof. intros H. now apply lstrip_incl, rstrip_incl. Qed.

(** The key the code reads off a line is the key the line declares. *)
Lemma declared_key_spec (line k : text) :
  declared_key line = Some k <-> line_declares line k.
Proof.
  unfold declared_key, line_declares. split.
  - destruct (text_contains EQUALS line) eqn:Ec; [|discriminate].
    apply text_contains_In in Ec.
    destruct (text_first_occurrence _ _ Ec) as (pre & rest & -> & Hpre).
    rewrite (text_split_first _ _ _ Hpre). intros [= <-].
    destruct (strip_decompose pre) as (pad1 & pad2 & Hx & H1 & H2 & Ht).
    exists pad1, pad2, rest. repeat split; try assumption.
    + rewrite Hx at 1. now rewrite <- !app_assoc.
    + intros Hin. apply Hpre. now apply strip_incl.
  - intros (pad1 & pad2 & rest & -> & H1 & H2 & Ht & Hk).
    assert (~ In EQUALS (pad1 ++ k ++ pad2)) as Hno.
    { intros Hin. apply in_app_or in Hin. destruct Hin as [Hin|Hin].
      - now apply (blank_no_equals pad1).
      - apply in_app_or in Hin. destruct Hin as [Hin|Hin]; [tauto|].
        now apply (blank_no_equals pad2). }
    replace (pad1 ++ k ++ pad2 ++ EQUALS :: rest)
      with ((pad1 ++ k ++ pad2) ++ EQUALS :: rest) by now rewrite <- !app_assoc.
    assert (text_contains EQUALS ((pad1 ++ k ++ pad2) ++ EQUALS :: rest) = true) as Ec.
    { apply text_contains_In, in_or_app. right. now left. }
    rewrite Ec, (text_split_first _ _ _ Hno).
    now rewrite (strip_padded pad1 k pad2 H1 H2 Ht).
Qed.

Lemma dict_mem_set (k k' v : text) (d : dict) :
  dict_mem k (dict_set k' v d) = text_eqb k' k || dict_mem k d.
Proof.
  induction d as [|[k0 v0] d IH]; simpl.
  - reflexivity.
  - destruct (text_eqb k0 k') eqn:E; simpl.
    + apply text_eqb_eq in E. subst k0.
      now destruct (text_eqb k' k).
    + rewrite IH. now destruct (text_eqb k0 k), (text_eqb k' k).
Qed.

Lemma parse_header_fold (k : text) (lines : list text) :
  forall acc,
    dict_mem k
      (fold_left
         (fun header line =>
            if text_contains EQUALS line then
              let parts := text_split EQUALS line in
              dict_set (strip (nth 0 parts [])) (strip (nth 1 parts [])) header
            else header)
         lines acc)
    = dict_mem k acc || existsb (declares_b k) lines.
Proof.
  induction lines as [|line lines IH]; intros acc; simpl.
  - now rewrite orb_false_r.
  - rewrite IH. unfold declares_b at 2, declared_key.
    destruct (text_contains EQUALS line); simpl.
    + rewrite dict_mem_set.
      now destruct (text_eqb _ k), (dict_mem k acc).
    + reflexivity.
Qed.

Lemma dict_mem_parse_header (k : text) (lines : list text) :
  dict_mem k (parse_header lines) = existsb (declares_b k) lines.
Proof. unfold parse_header. now rewrite parse_header_fold. Qed.

Lemma declares_existsb (k : text) (lines : list text) :
  existsb (declares_b k) lines = true <-> declares lines k.
Proof.
  rewrite existsb_exists. unfold declares, declares_b.
  split; intros (line & Hin & H); exists line; split; try assumption.
  - apply declared_key_spec.
    destruct (declared_key line) as [k'|]; [|discriminate].
    apply text_eqb_eq in H. now subst.
  - apply declared_key_spec in H. rewrite H. apply text_eqb_refl.
Qed.

(** The header holds the keys that the lines declare. *)
Lemma dict_mem_declares (lines : list text) (k : text) :
  dict_mem k (parse_header lines) = true <-> declares lines k.
Proof.
  rewrite dict_mem_parse_header. apply declares_existsb.
Qed.

Lemma picks_filter {A : Type} (P : A -> Prop) (f : A -> bool) (l : list A) :
  (forall x, In x l -> (f x = true <-> P x)) -> picks P l (filter f l).
Proof.
  induction l as [|x l IH]; intros H; simpl; [constructor|].
  assert (picks P l (filter f l)) as Hl.
  { apply IH. intros y Hy. apply H. now right. }
  destruct (f x) eqn:E.
  - apply picks_take; [|exact Hl]. apply H; [now left | exact E].
  - apply picks_skip; [|exact Hl]. intros HP.
    apply H in HP; [|now left]. congruence.
Qed.

Lemma picks_unique {A : Type} (P : A -> Prop) (l m m' : list A) :
  picks P l m -> picks P l m' -> m = m'.
Proof.
  intros H. revert m'.
  induction H as [|x l m Hx _ IH|x l m Hx _ IH]; intros m' H';
    inversion H'; subst; try contradiction; auto.
  f_equal. now apply IH.
Qed.

Lemma picks_In {A : Type} (P : A -> Prop) (l m : list A) :
  picks P l m -> forall x, In x m <-> In x l /\ P x.
Proof.
  induction 1 as [|x l m Hx _ IH|x l m Hx _ IH]; intros y; simpl.
  - tauto.
  - rewrite IH. split; [intros [<-|[? ?]]; tauto|]. tauto.
  - rewrite IH. split; [tauto|]. intros [[<-|?] ?]; tauto.
Qed.

(** The missing keys are the required keys that no line declares, in
    their order. *)
Lemma missing_keys_picks (lines : list text) (m : list string) :
  missing_keys (parse_header lines) = m
  <-> picks (undeclared lines) required_keys m.
Proof.
  change required_keys with REQUIRED_HEADER_KEYS.
  assert (picks (undeclared lines) REQUIRED_HEADER_KEYS
            (missing_keys (parse_header lines))) as H.
  { unfold missing_keys. apply picks_filter. intros key _.
    unfold undeclared. rewrite <- dict_mem_declares, negb_true_iff.
    now destruct (dict_mem (to_text key) (parse_header lines)). }
  split.
  - now intros <-.
  - intros Hm. now apply (picks_unique _ _ _ _ H Hm).
Qed.

Lemma missing_keys_none (lines : list text) :
  missing_keys (parse_header lines) = [] <-> declares_required lines.
Proof.
  unfold declares_required. change required_keys with REQUIRED_HEADER_KEYS.
  unfold missing_keys. split.
  - intros H key Hkey. apply dict_mem_declares.
    destruct (dict_mem (to_text key) (parse_header lines)) eqn:E; [reflexivity|].
    assert (In key (filter (fun key => negb (dict_mem (to_text key) (parse_header lines)))
                      REQUIRED_HEADER_KEYS)) as Hin.
    { apply filter_In. split; [exact Hkey | now rewrite E]. }
    rewrite H in Hin. destruct Hin.
  - intros H. apply (picks_unique (undeclared lines) REQUIRED_HEADER_KEYS).
    + now apply missing_keys_picks.
    + assert (forall l, (forall key, In key l -> declares lines (to_text key)) ->
                        picks (undeclared lines) l []) as Hnone.
      { induction l as [|x l IH]; intros Hl; [constructor|].
        apply picks_skip.
        - intros Hu. apply Hu, Hl. now left.
        - apply IH. intros key Hk. apply Hl. now right. }
      now apply Hnone.
Qed.

End Text.

(** ** Text files *)

Section Suffix.

Lemma rpartition_some (c : ascii) (s before after : string) :
  rpartition c s = Some (before, after) -> s = (before ++ String c after)%string.
Proof.
  revert before. induction s as [|a s IH]; simpl; intros before; [discriminate|].
  destruct (rpartition c s) as [[b t]|].
  - intros [= <- <-]. simpl. now rewrite (IH b eq_refl).
  - destruct (Ascii.eqb a c) eqn:E; [|discriminate].
    apply Ascii.eqb_eq in E. subst a. now intros [= <- <-].
Qed.

(** A path with the suffix [.txt] has a name that ends in [.txt] after a
    non-empty stem. *)
Lemma has_txt_suffix_name (f : PurePath) :
  has_txt_suffix f = true ->
  exists stem, stem <> "" /\ name f = (stem ++ ".txt")%string.
Proof.
  unfold has_txt_suffix, suffix. intros H. apply String.eqb_eq in H.
  destruct (rpartition "."%char (name f)) as [[before after]|] eqn:Hr; [|discriminate].
  destruct (is_empty before) eqn:Eb; simpl in H; [discriminate|].
  destruct (is_empty after); simpl in H; [discriminate|].
  injection H as ->. exists before. split.
  - intros ->. discriminate.
  - now apply rpartition_some.
Qed.

(** The test of the code for a text file, [f.suffix == ".txt"], holds of
    the names that end in [.txt] after a non-empty stem. *)
Lemma has_txt_suffix_spec (f : PurePath) :
  has_txt_suffix f = true <-> txt_file f.
Proof.
  split; [apply has_txt_suffix_name|].
  intros (stem & Hstem & Hname). unfold has_txt_suffix, suffix. rewrite Hname.
  change (stem ++ ".txt")%string with (stem ++ String "."%char "txt")%string.
  rewrite (rpartition_app "."%char stem "txt" eq_refl).
  destruct stem; [contradiction | reflexivity].
Qed.

Lemma picks_txt_files (entries : list PurePath) :
  picks txt_file entries (filter has_txt_suffix entries).
Proof. apply picks_filter. intros f _. apply has_txt_suffix_spec. Qed.

Lemma picks_txt_files_eq (entries fs : list PurePath) :
  picks txt_file entries fs -> filter has_txt_suffix entries = fs.
Proof. intros H. apply (picks_unique _ _ _ _ (picks_txt_files entries) H). Qed.

End Suffix.

(** ** The source enumerator *)

Section Enumerator.

Variable w : World.

Lemma check_txt_files_ok (d : PurePath) (fs : list PurePath) :
  Forall (well_formed_file w) fs -> check_txt_files w d fs = Ok tt.
Proof.
  induction 1 as [|f fs (lines & Hl & Hd) _ IH]; simpl; [reflexivity|].
  rewrite Hl. simpl. apply missing_keys_none in Hd. rewrite Hd. exact IH.
Qed.

Lemma check_txt_files_inv (d : PurePath) (fs : list PurePath) (u : unit) :
  check_txt_files w d fs = Ok u -> Forall (well_formed_file w) fs.
Proof.
  induction fs as [|f fs IH]; simpl; [constructor|].
  destruct (readlines w (str f)) as [lines|e] eqn:Hl; simpl; [|discriminate].
  destruct (missing_keys (parse_header lines)) eqn:Hm; [|discriminate].
  intros H. constructor; [|now apply IH].
  exists lines. split; [exact Hl | now apply missing_keys_none].
Qed.

Lemma check_txt_files_first_bad (d : PurePath) (pre post : list PurePath)
    (t : PurePath) (lines : list text) (m : list string) :
  Forall (well_formed_file w) pre ->
  readlines w (str t) = Ok lines ->
  picks (undeclared lines) required_keys m -> m <> [] ->
  check_txt_files w d (pre ++ t :: post)
  = Raise (FileNotFoundError (malformed_message (name d) m)).
Proof.
  intros Hpre Hl Hm Hne. apply missing_keys_picks in Hm.
  induction Hpre as [|f pre (flines & Hfl & Hfd) _ IH]; simpl.
  - rewrite Hl. simpl. rewrite Hm. destruct m; [contradiction | reflexivity].
  - rewrite Hfl. simpl. apply missing_keys_none in Hfd. rewrite Hfd. exact IH.
Qed.

Lemma well_formed_source_check (d : PurePath) :
  well_formed_source w d
  <-> exists entries,
        iterdir w d = Ok entries
        /\ check_txt_files w d (filter has_txt_suffix entries) = Ok tt.
Proof.
  unfold well_formed_source.
  split; intros (entries & He & H); exists entries; (split; [exact He|]).
  - apply check_txt_files_ok, Forall_forall. intros f Hf.
    apply filter_In in Hf. destruct Hf as [Hf Hs].
    apply H; [exact Hf | now apply has_txt_suffix_spec].
  - intros f Hf Hs. apply check_txt_files_inv in H.
    rewrite Forall_forall in H. apply H, filter_In.
    split; [exact Hf | now apply has_txt_suffix_spec].
Qed.

Lemma scan_unmarked (d : PurePath) (rest : list PurePath) (acc : list string) :
  unmarked w d ->
  scan_subdirectories w (d :: rest) acc = scan_subdirectories w rest acc.
Proof. unfold unmarked. intros H. simpl. now rewrite H. Qed.

Lemma scan_source (d : PurePath) (rest : list PurePath) (acc : list string) :
  marked w d -> well_formed_source w d ->
  scan_subdirectories w (d :: rest) acc
  = scan_subdirectories w rest (acc ++ [name d]).
Proof.
  unfold marked. intros Hm Hs. apply well_formed_source_check in Hs.
  destruct Hs as (entries & He & Hc). simpl. rewrite Hm. simpl.
  rewrite He. simpl. now rewrite Hc.
Qed.

Lemma scan_head_inv (d : PurePath) (rest : list PurePath) (acc l : list string) :
  scan_subdirectories w (d :: rest) acc = Ok l ->
  unmarked w d \/ (marked w d /\ well_formed_source w d).
Proof.
  unfold unmarked, marked. simpl.
  destruct (is_file w (truediv d "__init__.py")) as [[|]|e]; simpl.
  - intros H. right. split; [reflexivity|]. apply well_formed_source_check.
    destruct (iterdir w d) as [entries|e]; simpl in H; [|discriminate H].
    exists entries. split; [reflexivity|].
    destruct (check_txt_files w d (filter has_txt_suffix entries)) as [[]|e];
      [reflexivity | discriminate H].
  - intros _. now left.
  - intros H. discriminate H.
Qed.

Lemma skipped_not_source (e : PurePath) : skipped w e -> ~ is_source w e.
Proof.
  unfold skipped, is_source, unmarked, marked.
  intros [H|[_ H]] (Hd & Hm & _); congruence.
Qed.

Lemma picks_sources (entries : list PurePath) :
  (forall e, In e entries -> skipped w e \/ is_source w e) ->
  exists ds, picks (is_source w) entries ds.
Proof.
  induction entries as [|e entries IH]; intros H.
  - exists []. constructor.
  - destruct IH as [ds Hds]; [intros x Hx; apply H; now right|].
    destruct (H e (or_introl eq_refl)) as [Hs|Hs].
    + exists ds. apply picks_skip; [now apply skipped_not_source | exact Hds].
    + exists (e :: ds). now apply picks_take.
Qed.

(** The comprehension over the entries of the root keeps the
    directories, provided no test fails. *)
Lemma filter_result_total (entries : list PurePath) :
  (forall e, In e entries -> exists b, is_dir w e = Ok b) ->
  filter_result (is_dir w) entries = Ok (filter (is_dir_b w) entries).
Proof.
  induction entries as [|e entries IH]; intros H; simpl; [reflexivity|].
  rewrite IH by (intros x Hx; apply H; now right).
  unfold is_dir_b. destruct (H e (or_introl eq_refl)) as [b ->]. simpl.
  now destruct b.
Qed.

Lemma filter_result_inv (entries subs : list PurePath) :
  filter_result (is_dir w) entries = Ok subs ->
  forall e, In e entries -> exists b, is_dir w e = Ok b.
Proof.
  revert subs. induction entries as [|e entries IH]; intros subs; simpl; [tauto|].
  destruct (is_dir w e) as [b|x] eqn:Ee; simpl; [|discriminate].
  destruct (filter_result (is_dir w) entries) as [kept|x]; simpl; [|discriminate].
  intros _ y [<-|Hy]; [now exists b | now apply (IH kept)].
Qed.

(** The scan of the directories among entries that are all passed over or
    valid sources yields the names of the sources. *)
Lemma scan_picks (entries : list PurePath) :
  forall acc ds,
    (forall e, In e entries -> skipped w e \/ is_source w e) ->
    picks (is_source w) entries ds ->
    scan_subdirectories w (filter (is_dir_b w) entries) acc
    = Ok (acc ++ map name ds).
Proof.
  induction entries as [|e entries IH]; intros acc ds Hall Hp.
  - inversion Hp; subst. simpl. now rewrite app_nil_r.
  - assert (forall x, In x entries -> skipped w x \/ is_source w x) as Hrest
      by (intros x Hx; apply Hall; now right).
    simpl filter. unfold is_dir_b at 1.
    destruct (Hall e (or_introl eq_refl)) as [Hs|Hs].
    + assert (picks (is_source w) entries ds) as Hp'.
      { inversion Hp; subst; [|assumption].
        exfalso. now apply (skipped_not_source e). }
      destruct Hs as [Hd|[Hd Hu]]; rewrite Hd.
      * now apply IH.
      * rewrite (scan_unmarked _ _ _ Hu). now apply IH.
    + pose proof Hs as (Hd & Hm & Hwf). rewrite Hd.
      rewrite (scan_source _ _ _ Hm Hwf).
      inversion Hp; subst; [|contradiction].
      rewrite (IH _ m Hrest); [|assumption].
      simpl. now rewrite <- app_assoc.
Qed.

Lemma scan_inv (entries : list PurePath) :
  forall acc l,
    (forall e, In e entries -> exists b, is_dir w e = Ok b) ->
    scan_subdirectories w (filter (is_dir_b w) entries) acc = Ok l ->
    forall e, In e entries -> skipped w e \/ is_source w e.
Proof.
  induction entries as [|e entries IH]; intros acc l Hd; [intros _ x []|].
  assert (forall x, In x entries -> exists b, is_dir w x = Ok b) as Hrest
    by (intros x Hx; apply Hd; now right).
  simpl filter. unfold is_dir_b at 1.
  destruct (Hd e (or_introl eq_refl)) as [[|] He]; rewrite He.
  - intros H.
    destruct (scan_head_inv _ _ _ _ H) as [Hu|[Hm Hwf]].
    + rewrite (scan_unmarked _ _ _ Hu) in H.
      intros x [<-|Hx]; [left; now right | now apply (IH _ _ Hrest H)].
    + rewrite (scan_source _ _ _ Hm Hwf) in H.
      intros x [<-|Hx]; [right; now repeat split | now apply (IH _ _ Hrest H)].
  - intros H x [<-|Hx]; [left; now left | now apply (IH _ _ Hrest H)].
Qed.

Lemma scan_first_bad (pre post : list PurePath) (d : PurePath)
    (dentries tpre tpost : list PurePath) (t : PurePath)
    (lines : list text) (m : list string) :
  forall acc,
    (forall e, In e pre -> skipped w e \/ is_source w e) ->
    is_dir w d = Ok true ->
    marked w d ->
    iterdir w d = Ok dentries ->
    picks txt_file dentries (tpre ++ t :: tpost) ->
    Forall (well_formed_file w) tpre ->
    readlines w (str t) = Ok lines ->
    picks (undeclared lines) required_keys m -> m <> [] ->
    scan_subdirectories w (filter (is_dir_b w) (pre ++ d :: post)) acc
    = Raise (FileNotFoundError (malformed_message (name d) m)).
Proof.
  intros acc Hpre Hd Hm Hi Ht Htpre Hl Hmiss Hne. revert acc.
  apply picks_txt_files_eq in Ht.
  induction pre as [|x pre IH]; intros acc.
  - simpl app. simpl filter. unfold is_dir_b at 1. rewrite Hd.
    unfold marked in Hm. simpl. rewrite Hm. simpl. rewrite Hi. simpl.
    rewrite Ht.
    now rewrite (check_txt_files_first_bad d tpre tpost t lines m Htpre Hl Hmiss Hne).
  - assert (forall e, In e pre -> skipped w e \/ is_source w e) as Hrest
      by (intros e He; apply Hpre; now right).
    simpl app. simpl filter. unfold is_dir_b at 1.
    destruct (Hpre x (or_introl eq_refl)) as [[Hx|[Hx Hu]]|(Hx & Hxm & Hwf)];
      rewrite Hx.
    + now apply IH.
    + rewrite (scan_unmarked _ _ _ Hu). now apply IH.
    + rewrite (scan_source _ _ _ Hxm Hwf). now apply IH.
Qed.

(** The registry root as the enumerator obtains it: only the installed
    tier ever yields one. *)
Lemma get_available_sources_root (l : list string) :
  get_available_sources w = Ok l ->
  exists base entries subs,
    files w "pymkm.data.defaults" = Ok base
    /\ iterdir w base = Ok entries
    /\ filter_result (is_dir w) entries = Ok subs
    /\ scan_subdirectories w subs [] = Ok l.
Proof.
  unfold get_available_sources, list_subdirectories.
  assert (forall (r : result (list PurePath)) (k : list PurePath -> result (list string)),
             (all <- (_ <- r ;; Raise (FileNotFoundError "Could not locate default sources.")) ;;
              k all) <> Ok l) as Hdead.
  { intros [x|e] k; simpl; discriminate. }
  assert (forall k : list PurePath -> result (list string),
             (all <- (spec <- find_spec w "pymkm.data.defaults" ;;
                      _ <- match truthy_origin spec with
                           | Some o =>
                               entries <- iterdir w (parent (parse o)) ;;
                               filter_result (is_dir w) entries
                           | None => Ok []
                           end ;;
                      Raise (FileNotFoundError "Could not locate default sources.")) ;;
              k all) <> Ok l) as Hhandler.
  { intros k. destruct (find_spec w "pymkm.data.defaults") as [spec|e']; simpl.
    - apply Hdead.
    - discriminate. }
  destruct (files w "pymkm.data.defaults") as [base|e]; simpl.
  - destruct (iterdir w base) as [entries|e] eqn:He; simpl.
    + destruct (filter_result (is_dir w) entries) as [subs|e] eqn:Hf; simpl.
      * intros H. exists base, entries, subs. now repeat split.
      * intros H. now apply Hhandler in H.
    + intros H. now apply Hhandler in H.
  - intros H. now apply Hhandler in H.
Qed.

Lemma get_available_sources_installed (base : PurePath) (entries : list PurePath) :
  files w "pymkm.data.defaults" = Ok base ->
  iterdir w base = Ok entries ->
  (forall e, In e entries -> exists b, is_dir w e = Ok b) ->
  get_available_sources w
  = scan_subdirectories w (filter (is_dir_b w) entries) [].
Proof.
  intros Hb He Hd. unfold get_available_sources, list_subdirectories.
  rewrite Hb. simpl. rewrite He. simpl.
  now rewrite (filter_result_total entries Hd).
Qed.

Lemma classified_kind (entries : list PurePath) :
  (forall e, In e entries -> skipped w e \/ is_source w e) ->
  forall e, In e entries -> exists b, is_dir w e = Ok b.
Proof.
  intros H e He.
  destruct (H e He) as [[Hd|[Hd _]]|(Hd & _)]; rewrite Hd; eexists; reflexivity.
Qed.

End Enumerator.

(** C6. The enumerator returns the list [l] exactly when the installed
    root is found and listed, every entry of it is either passed over - not
    a directory, or a subdirectory without the package marker, whatever it
    holds - or a valid source - a marked subdirectory whose text files, if
    any, all declare every required key - and [l] names the valid sources
    in the order of the listing. *)
Theorem get_available_sources_exact (w : World) (l : list string) :
  get_available_sources w = Ok l
  <-> exists base entries ds,
        files w "pymkm.data.defaults" = Ok base
        /\ iterdir w base = Ok entries
        /\ (forall e, In e entries -> skipped w e \/ is_source w e)
        /\ picks (is_source w) entries ds
        /\ l = map name ds.
Proof.
  split.
  - intros H.
    destruct (get_available_sources_root w l H)
      as (base & entries & subs & Hb & He & Hf & Hs).
    pose proof (filter_result_inv w entries subs Hf) as Hkind.
    rewrite (filter_result_total w entries Hkind) in Hf. injection Hf as <-.
    pose proof (scan_inv w entries [] l Hkind Hs) as Hall.
    destruct (picks_sources w entries Hall) as [ds Hds].
    exists base, entries, ds. repeat split; try assumption.
    rewrite (scan_picks w entries [] ds Hall Hds) in Hs. now injection Hs as <-.
  - intros (base & entries & ds & Hb & He & Hall & Hds & ->).
    rewrite (get_available_sources_installed w base entries Hb He
               (classified_kind w entries Hall)).
    now rewrite (scan_picks w entries [] ds Hall Hds).
Qed.

(** C2 as amended. When the entries of the root before the subdirectory
    [d] are passed over or valid sources, [d] is marked, its text files
    before the text file [t] are well-formed and the lines of [t] do not
    declare the required keys [m], the enumerator fails with the
    MalformedSource error that names [d] and lists exactly [m]; nothing
    validated before is returned, and of what comes after only the kind is
    looked at. *)
Theorem get_available_sources_malformed (w : World) (base : PurePath)
    (pre post : list PurePath) (d : PurePath)
    (dentries tpre tpost : list PurePath) (t : PurePath)
    (lines : list text) (m : list string) :
  files w "pymkm.data.defaults" = Ok base ->
  iterdir w base = Ok (pre ++ d :: post) ->
  (forall e, In e pre -> skipped w e \/ is_source w e) ->
  (forall e, In e post -> exists b, is_dir w e = Ok b) ->
  is_dir w d = Ok true ->
  marked w d ->
  iterdir w d = Ok dentries ->
  picks txt_file dentries (tpre ++ t :: tpost) ->
  Forall (well_formed_file w) tpre ->
  readlines w (str t) = Ok lines ->
  picks (undeclared lines) required_keys m ->
  m <> [] ->
  get_available_sources w
  = Raise (FileNotFoundError (malformed_message (name d) m))
  /\ (forall l, get_available_sources w <> Ok l)
  /\ (exists pre_text post_text,
        malformed_message (name d) m
        = (pre_text ++ name d ++ ": " ++ join_with ", " m ++ post_text)%string).
Proof.
  intros Hb He Hpre Hpost Hd Hm Hi Ht Htpre Hl Hmiss Hne.
  assert (get_available_sources w
          = Raise (FileNotFoundError (malformed_message (name d) m))) as Hres.
  { rewrite (get_available_sources_installed w base (pre ++ d :: post) Hb He).
    - now apply (scan_first_bad w pre post d dentries tpre tpost t lines m).
    - intros e Hin. apply in_app_or in Hin. destruct Hin as [Hin|[<-|Hin]].
      + now apply (classified_kind w pre Hpre).
      + now exists true.
      + now apply Hpost. }
  split; [exact Hres|]. split.
  - intros l. rewrite Hres. discriminate.
  - unfold malformed_message.
    exists "Source files with unexpected header format in default source folder ".
    eexists. reflexivity.
Qed.

(** Against C2 as stated: a malformed text file in a marked subdirectory
    does not make the enumerator fail with a MalformedSource error in
    every registry state.  Where an earlier source holds a directory named
    [tables.txt], opening it raises [IsADirectoryError] before the
    malformed file is read. *)
Lemma get_available_sources_malformed_unreported :
  ~ (forall (w : World) (base : PurePath) (entries : list PurePath) (d : PurePath)
            (dentries : list PurePath) (t : PurePath)
            (lines : list text) (m : list string),
        files w "pymkm.data.defaults" = Ok base ->
        iterdir w base = Ok entries ->
        In d entries ->
        is_dir w d = Ok true ->
        marked w d ->
        iterdir w d = Ok dentries ->
        In t dentries ->
        txt_file t ->
        readlines w (str t) = Ok lines ->
        picks (undeclared lines) required_keys m ->
        m <> [] ->
        exists subdir_name missing,
          get_available_sources w
          = Raise (FileNotFoundError (malformed_message subdir_name missing))).
Proof.
  intros H.
  destruct (H w_blocked defaults_dir
              [child defaults_dir "__init__.py"; source_dir "fluka_2020_0";
               source_dir "geant4_11_3_0"]
              (source_dir "geant4_11_3_0")
              [child (source_dir "geant4_11_3_0") "__init__.py";
               child (source_dir "geant4_11_3_0") "carbon.txt"]
              (child (source_dir "geant4_11_3_0") "carbon.txt")
              carbon_no_target_lines ["Target"])
    as (subdir_name & missing & Hres).
  - vm_compute. reflexivity.
  - vm_compute. reflexivity.
  - right. right. now left.
  - vm_compute. reflexivity.
  - vm_compute. reflexivity.
  - vm_compute. reflexivity.
  - right. now left.
  - exists "carbon". split; [discriminate | reflexivity].
  - vm_compute. reflexivity.
  - apply missing_keys_picks. vm_compute. reflexivity.
  - discriminate.
  - assert (get_available_sources w_blocked
            = Raise (IsADirectoryError
                       "/site/pymkm/data/defaults/fluka_2020_0/tables.txt")) as Hrun
      by (vm_compute; reflexivity).
    rewrite Hrun in Hres. discriminate Hres.
Qed.

(** The scenarios of the specification. *)
Example carbon_header_complete :
  readlines w_good "/site/pymkm/data/defaults/geant4_11_3_0/carbon.txt" = Ok carbon_lines
  /\ missing_keys (parse_header carbon_lines) = [].
Proof. split; vm_compute; reflexivity. Qed.

Example carbon_header_without_target :
  missing_keys (parse_header carbon_no_target_lines) = ["Target"].
Proof. vm_compute. reflexivity. Qed.

Example scenario_one_source :
  get_available_sources w_good = Ok ["geant4_11_3_0"]
  /\ list_available_defaults w_good "geant4_11_3_0" = Ok ["carbon.txt"].
Proof. split; vm_compute; reflexivity. Qed.

(** Of two malformed sources the error names the first of the listing. *)
Example first_malformed_source_named :
  get_available_sources w_two_malformed
  = Raise (FileNotFoundError (malformed_message "fluka_2020_0" ["Target"])).
Proof. vm_compute. reflexivity. Qed.

(** A directory named [tables.txt] in an earlier source stops the
    enumeration before the malformed file of a later one is read. *)
Example blocked_source_stops_enumeration :
  get_available_sources w_blocked
  = Raise (IsADirectoryError "/site/pymkm/data/defaults/fluka_2020_0/tables.txt").
Proof. vm_compute. reflexivity. Qed.

(** The [except] branch of the enumerator never hands a listing on. *)
Lemma get_available_sources_needs_installed (w : World) (e : exn) :
  (base <- files w "pymkm.data.defaults" ;; list_subdirectories w base) = Raise e ->
  forall l, get_available_sources w <> Ok l.
Proof.
  intros He l H.
  destruct (get_available_sources_root w l H) as (base & entries & subs & Hb & Hi & Hf & _).
  unfold list_subdirectories in He. rewrite Hb in He. simpl in He.
  rewrite Hi in He. simpl in He. rewrite Hf in He. discriminate He.
Qed.

(** C1. Where only the second tier locates the registry root, the
    enumerator lists the root, discards the listing and raises: the module
    specification is found, its directory lists the two subdirectories, the
    scan of that listing would return the one valid source, and the call
    fails all the same. *)
Theorem get_available_sources_fallback_discarded :
  (exists e, files w_no_files "pymkm.data.defaults" = Raise e)
  /\ find_spec w_no_files "pymkm.data.defaults"
     = Ok (Some {| origin := Some "/site/pymkm/data/defaults/__init__.py" |})
  /\ (exists subs,
        list_subdirectories w_no_files
          (parent (parse "/site/pymkm/data/defaults/__init__.py")) = Ok subs
        /\ scan_subdirectories w_no_files subs [] = Ok ["geant4_11_3_0"])
  /\ get_available_sources w_no_files
     = Raise (FileNotFoundError "Could not locate default sources.")
  /\ (forall l, get_available_sources w_no_files <> Ok l).
Proof.
  split; [|split; [|split; [|split]]].
  - eexists. reflexivity.
  - vm_compute. reflexivity.
  - exists [mkPath "/" ["site"; "pymkm"; "data"; "defaults"; "geant4_11_3_0"];
            mkPath "/" ["site"; "pymkm"; "data"; "defaults"; "scratch"]].
    split; vm_compute; reflexivity.
  - vm_compute. reflexivity.
  - apply (get_available_sources_needs_installed w_no_files
             (OtherException "ImportError: cannot import name files")).
    reflexivity.
Qed.

(** ** The file lister *)

Section Lister.

Variable w : World.
Variable source : string.

Lemma list_available_defaults_installed (entries : list PurePath) :
  installed_listing w source = Ok entries ->
  list_available_defaults w source = Ok (map name (filter has_txt_suffix entries)).
Proof.
  unfold installed_listing, list_available_defaults, list_txt_names.
  destruct (files w _) as [folder|e]; simpl; [|discriminate].
  intros ->. reflexivity.
Qed.

(** The lister after a failed first tier. *)
Lemma list_available_defaults_handler (e : exn) :
  installed_listing w source = Raise e ->
  list_available_defaults w source =
  (spec <- find_spec w ("pymkm.data.defaults." ++ source)%string ;;
   match truthy_origin spec with
   | Some o => list_txt_names w (parent (parse o))
   | None =>
       Raise (FileNotFoundError
                ("Could not locate txt files for source: " ++ source)%string)
   end).
Proof.
  unfold installed_listing, list_available_defaults, list_txt_names.
  destruct (files w _) as [folder|e0]; simpl; [|reflexivity].
  intros ->. reflexivity.
Qed.

End Lister.

(** The lister takes the directory that [importlib.resources.files] yields
    when it can be listed, else the directory of the origin of the module
    specification; it returns the names of the entries of that directory
    whose suffix is [.txt], whatever the files hold; it fails with NotFound
    when the first tier fails and the import system returns no
    specification or no origin; an error that [find_spec] or the listing of
    the second directory raises reaches the caller unchanged. *)
Lemma list_available_defaults_tiers (w : World) (source : string) :
  (forall entries,
      installed_listing w source = Ok entries ->
      list_available_defaults w source = Ok (map name (filter has_txt_suffix entries)))
  /\ (forall e d entries,
        installed_listing w source = Raise e ->
        fallback_dir w source = Some d ->
        iterdir w d = Ok entries ->
        list_available_defaults w source = Ok (map name (filter has_txt_suffix entries)))
  /\ (forall e spec,
        installed_listing w source = Raise e ->
        find_spec w ("pymkm.data.defaults." ++ source)%string = Ok spec ->
        truthy_origin spec = None ->
        list_available_defaults w source
        = Raise (FileNotFoundError
                   ("Could not locate txt files for source: " ++ source)%string))
  /\ (forall e e',
        installed_listing w source = Raise e ->
        find_spec w ("pymkm.data.defaults." ++ source)%string = Raise e' ->
        list_available_defaults w source = Raise e')
  /\ (forall e d e',
        installed_listing w source = Raise e ->
        fallback_dir w source = Some d ->
        iterdir w d = Raise e' ->
        list_available_defaults w source = Raise e').
Proof.
  repeat split.
  - apply list_available_defaults_installed.
  - intros e d entries He Hd Hi.
    rewrite (list_available_defaults_handler w source e He).
    unfold fallback_dir in Hd.
    destruct (find_spec w _) as [spec|e0]; [|discriminate]. simpl.
    destruct (truthy_origin spec) as [o|]; [|discriminate].
    injection Hd as <-. unfold list_txt_names. now rewrite Hi.
  - intros e spec He Hs Ht.
    rewrite (list_available_defaults_handler w source e He), Hs. simpl.
    now rewrite Ht.
  - intros e e' He Hs.
    rewrite (list_available_defaults_handler w source e He), Hs. reflexivity.
  - intros e d e' He Hd Hi.
    rewrite (list_available_defaults_handler w source e He).
    unfold fallback_dir in Hd.
    destruct (find_spec w _) as [spec|e0]; [|discriminate]. simpl.
    destruct (truthy_origin spec) as [o|]; [|discriminate].
    injection Hd as <-. unfold list_txt_names. now rewrite Hi.
Qed.

(** C8. In an installation without its data directory neither tier
    resolves the source directory, and the lister does not fail with
    NotFound: [find_spec], called in the handler with no [try] around it,
    raises for the missing parent package and that error reaches the
    caller. *)
Theorem list_available_defaults_find_spec_error :
  installed_listing w_no_data "geant4_11_3_0"
  = Raise (ModuleNotFoundError "pymkm.data")
  /\ find_spec w_no_data "pymkm.data.defaults.geant4_11_3_0"
     = Raise (ModuleNotFoundError "pymkm.data")
  /\ fallback_dir w_no_data "geant4_11_3_0" = None
  /\ list_available_defaults w_no_data "geant4_11_3_0"
     = Raise (ModuleNotFoundError "pymkm.data")
  /\ get_default_txt_path w_no_data "geant4_11_3_0" "carbon.txt"
     = Raise (FileNotFoundError "Cannot find file 'carbon.txt' for source 'geant4_11_3_0'").
Proof.
  repeat split; vm_compute; reflexivity.
Qed.

(** ** Exception types *)

Section Failures.

Variable w : World.

Lemma check_txt_files_failure (d : PurePath) (fs : list PurePath) (e : exn) :
  check_txt_files w d fs = Raise e ->
  (exists missing,
      missing <> [] /\ e = FileNotFoundError (malformed_message (name d) missing))
  \/ raised_by_reading w e.
Proof.
  induction fs as [|f fs IH]; simpl; [discriminate|].
  destruct (readlines w (str f)) as [lines|e0] eqn:Hr; simpl.
  - destruct (missing_keys (parse_header lines)) as [|k m] eqn:Hm; [exact IH|].
    intros [= <-]. left. exists (k :: m). split; [discriminate | reflexivity].
  - intros [= <-]. right. now exists (str f).
Qed.

Lemma scan_failure (ds : list PurePath) :
  forall acc e,
    scan_subdirectories w ds acc = Raise e ->
    (exists subdir_name missing,
        missing <> []
        /\ e = FileNotFoundError (malformed_message subdir_name missing))
    \/ raised_by_listing w e \/ raised_by_kind_test w e \/ raised_by_reading w e.
Proof.
  induction ds as [|d ds IH]; intros acc e; simpl; [discriminate|].
  destruct (is_file w (truediv d "__init__.py")) as [[|]|e0] eqn:Hf; simpl.
  - destruct (iterdir w d) as [entries|e0] eqn:Hi; simpl.
    + destruct (check_txt_files w d (filter has_txt_suffix entries)) as [u|e1] eqn:Hc; simpl.
      * apply IH.
      * intros [= <-].
        destruct (check_txt_files_failure d _ e1 Hc) as [(m & Hm & He)|Hr].
        -- left. now exists (name d), m.
        -- auto.
    + intros [= <-]. right. left. now exists d.
  - apply IH.
  - intros [= <-]. right. right. left.
    exists (truediv d "__init__.py"). now right.
Qed.

Lemma filter_result_failure (l : list PurePath) (e : exn) :
  filter_result (is_dir w) l = Raise e -> raised_by_kind_test w e.
Proof.
  induction l as [|p l IH]; simpl; [discriminate|].
  destruct (is_dir w p) as [b|e0] eqn:Hp; simpl.
  - destruct (filter_result (is_dir w) l) as [kept|e1]; simpl; [discriminate|].
    intros [= <-]. now apply IH.
  - intros [= <-]. exists p. now left.
Qed.

Lemma list_subdirectories_failure (p : PurePath) (e : exn) :
  list_subdirectories w p = Raise e ->
  raised_by_listing w e \/ raised_by_kind_test w e.
Proof.
  unfold list_subdirectories. destruct (iterdir w p) as [entries|e0] eqn:Hi; simpl.
  - intros H. right. now apply (filter_result_failure entries).
  - intros [= <-]. left. now exists p.
Qed.

Lemma list_txt_names_failure (p : PurePath) (e : exn) :
  list_txt_names w p = Raise e -> raised_by_listing w e.
Proof.
  unfold list_txt_names. destruct (iterdir w p) as [entries|e0] eqn:Hi; simpl.
  - discriminate.
  - intros [= <-]. now exists p.
Qed.

Lemma get_available_sources_failure (e : exn) :
  get_available_sources w = Raise e ->
  e = FileNotFoundError "Could not locate default sources."
  \/ (exists subdir_name missing,
         missing <> []
         /\ e = FileNotFoundError (malformed_message subdir_name missing))
  \/ find_spec w "pymkm.data.defaults" = Raise e
  \/ raised_by_listing w e \/ raised_by_kind_test w e \/ raised_by_reading w e.
Proof.
  unfold get_available_sources.
  assert (forall e0 : exn,
             (spec <- find_spec w "pymkm.data.defaults" ;;
              _ <- match truthy_origin spec with
                   | Some o => list_subdirectories w (parent (parse o))
                   | None => Ok []
                   end ;;
              (Raise (FileNotFoundError "Could not locate default sources.")
               : result (list PurePath)))
             = Raise e0 ->
             e0 = FileNotFoundError "Could not locate default sources."
             \/ find_spec w "pymkm.data.defaults" = Raise e0
             \/ raised_by_listing w e0 \/ raised_by_kind_test w e0) as Hhandler.
  { intros e0. destruct (find_spec w "pymkm.data.defaults") as [spec|e1]; simpl.
    - destruct (truthy_origin spec) as [o|]; simpl.
      + destruct (list_subdirectories w (parent (parse o))) as [l|e2] eqn:Hl; simpl.
        * intros [= <-]. now left.
        * intros [= <-]. right. right.
          now apply (list_subdirectories_failure _ _ Hl).
      + intros [= <-]. now left.
    - intros [= <-]. right. now left. }
  destruct (base <- files w "pymkm.data.defaults" ;; list_subdirectories w base)
    as [all|e0]; simpl.
  - intros H. destruct (scan_failure _ _ _ H) as [H1|[H1|[H1|H1]]]; auto 8.
  - match goal with
    | |- bind ?h _ = _ -> _ => destruct h as [all|e1] eqn:Hh; simpl
    end.
    + intros H. destruct (scan_failure _ _ _ H) as [H1|[H1|[H1|H1]]]; auto 8.
    + intros [= <-]. destruct (Hhandler _ eq_refl) as [H1|[H1|[H1|H1]]]; auto 8.
Qed.

Lemma list_available_defaults_failure (source : string) (e : exn) :
  list_available_defaults w source = Raise e ->
  e = FileNotFoundError ("Could not locate txt files for source: " ++ source)%string
  \/ find_spec w ("pymkm.data.defaults." ++ source)%string = Raise e
  \/ raised_by_listing w e.
Proof.
  destruct (installed_listing w source) as [entries|e0] eqn:Hi.
  - rewrite (list_available_defaults_installed w source entries Hi). discriminate.
  - rewrite (list_available_defaults_handler w source e0 Hi).
    destruct (find_spec w _) as [spec|e1]; simpl.
    + destruct (truthy_origin spec) as [o|]; simpl.
      * intros H. right. right. now apply (list_txt_names_failure _ _ H).
      * intros [= <-]. now left.
    + intros [= <-]. right. now left.
Qed.

End Failures.



(** Errors of the library calls that reach the caller of the enumerator:
    a text file the process may not read, a source directory it may not
    search, a text file that the codec of the locale does not decode. *)
Example get_available_sources_unreadable :
  get_available_sources w_unreadable
  = Raise (PermissionError "/site/pymkm/data/defaults/geant4_11_3_0/carbon.txt").
Proof. vm_compute. reflexivity. Qed.

Example get_available_sources_unsearchable :
  get_available_sources w_unsearchable
  = Raise (PermissionError "/site/pymkm/data/defaults/geant4_11_3_0/__init__.py").
Proof. vm_compute. reflexivity. Qed.

Example get_available_sources_undecodable :
  get_available_sources w_latin1
  = Raise (UnicodeDecodeError "/site/pymkm/data/defaults/geant4_11_3_0/carbon.txt").
Proof. vm_compute. reflexivity. Qed.

(** ** The lookup loader *)

Section LoaderFacts.

Variable json : Type.
Variable json_loads : text -> result json.
Variable w : World.

Lemma load_json_file_content (path : string) (content : text) :
  file_content w path = Some content ->
  load_json_file json_loads w path = json_loads (translate_newlines false content).
Proof.
  unfold file_content, load_json_file, open_read.
  destruct (stat w path) as [e|[c| |entries|r x entries]]; try discriminate.
  now intros ->.
Qed.

Lemma load_json_file_absent (path : string) :
  file_content w path = None ->
  exists e, load_json_file json_loads w path = Raise e.
Proof.
  unfold file_content, load_json_file, open_read.
  destruct (stat w path) as [e|[c| |entries|[|] x entries]]; intros H;
    try (eexists; reflexivity).
  rewrite H. eexists. reflexivity.
Qed.

(** The loader when the installed tier has a lookup file: its value if it
    parses, else whatever the local tier gives. *)
Lemma load_lookup_table_installed (content : text) :
  installed_elements w = Some content ->
  load_lookup_table json_loads w =
  match json_loads (translate_newlines false content) with
  | Ok v => Ok v
  | Raise _ => load_json_file json_loads w (local_elements_path w)
  end.
Proof.
  unfold installed_elements, load_lookup_table.
  destruct (files w "pymkm.data") as [pkg|e]; [|discriminate]. simpl.
  intros H. now rewrite (load_json_file_content _ _ H).
Qed.

Lemma load_lookup_table_fallback :
  installed_elements w = None ->
  load_lookup_table json_loads w = load_json_file json_loads w (local_elements_path w).
Proof.
  unfold installed_elements, load_lookup_table.
  destruct (files w "pymkm.data") as [pkg|e]; [|reflexivity]. simpl.
  intros H. destruct (load_json_file_absent _ H) as [e ->]. reflexivity.
Qed.

End LoaderFacts.

(** C7. What the parser makes of the text of the located lookup file is
    what the loader returns, unchanged: for the installed file when there
    is one, for the local file when the installed tier has none. *)
Theorem load_lookup_table_round_trip (json : Type) (json_loads : text -> result json)
    (w : World) (content : text) (x : json) :
  json_loads (translate_newlines false content) = Ok x ->
  installed_elements w = Some content
  \/ (installed_elements w = None /\ local_elements w = Some content) ->
  load_lookup_table json_loads w = Ok x.
Proof.
  intros Hx [Hi|[Hi Hl]].
  - now rewrite (load_lookup_table_installed json json_loads w content Hi), Hx.
  - rewrite (load_lookup_table_fallback json json_loads w Hi).
    now rewrite (load_json_file_content json json_loads w _ content Hl).
Qed.

(** The scenario of the specification: a lookup file holding the record of
    hydrogen loads as that record. *)
Lemma load_lookup_table_round_trip_witness :
  load_lookup_table Json.loads w_good = Ok hydrogen.
Proof.
  apply (load_lookup_table_round_trip Json.value Json.loads w_good
           (to_text elements_json) hydrogen).
  - vm_compute. reflexivity.
  - left. vm_compute. reflexivity.
Defined.

(** C3. An installed lookup file that exists and is not JSON does not make
    the loader fail with a decoding error: the error is caught with all
    others and the local file is read instead, so the call returns the
    local mapping, or fails with NotFound when there is no local file. *)
Theorem load_lookup_table_swallows_decode_error :
  installed_elements w_split = Some (to_text "not json")
  /\ Json.loads (to_text "not json") = Raise (JSONDecodeError "Expecting value")
  /\ load_lookup_table Json.loads w_split = Ok hydrogen
  /\ installed_elements w_split_no_local = Some (to_text "not json")
  /\ local_elements w_split_no_local = None
  /\ load_lookup_table Json.loads w_split_no_local
     = Raise (FileNotFoundError "/dev/pymkm/data/elements.json").
Proof.
  repeat split; vm_compute; reflexivity.
Qed.

(** ** Instances *)

Lemma get_default_txt_path_not_found_witness :
  get_default_txt_path w_dev "geant4_11_3_0" "nitrogen.txt"
  = Raise (FileNotFoundError "Cannot find file 'nitrogen.txt' for source 'geant4_11_3_0'").
Proof.
  apply (proj1 (proj2 (proj2
           (get_default_txt_path_not_found w_dev "geant4_11_3_0" "nitrogen.txt")))).
  - vm_compute. reflexivity.
  - vm_compute. reflexivity.
Defined.

Lemma get_default_txt_path_found_witness :
  exists p,
    get_default_txt_path w_dev "geant4_11_3_0" "carbon.txt" = Ok p
    /\ path_exists w_dev p = true
    /\ posixpath.basename p = "carbon.txt"
    /\ (in_installed_tier w_dev "geant4_11_3_0" "carbon.txt" = true ->
        installed_candidate w_dev "geant4_11_3_0" "carbon.txt" = Some p)
    /\ (in_installed_tier w_dev "geant4_11_3_0" "carbon.txt" = false ->
        p = local_txt_path w_dev "geant4_11_3_0" "carbon.txt").
Proof.
  apply (get_default_txt_path_found w_dev "geant4_11_3_0" "carbon.txt").
  - reflexivity.
  - right. vm_compute. reflexivity.
Defined.

Lemma get_default_txt_path_empty_filename_witness :
  get_default_txt_path w_good "geant4_11_3_0" ""
  = Ok "/site/pymkm/data/defaults/geant4_11_3_0/"
  /\ get_default_txt_path w_dev "geant4_11_3_0" ""
     = Ok "/dev/pymkm/data/defaults/geant4_11_3_0".
Proof.
  split.
  - apply (proj1 (get_default_txt_path_empty_filename w_good "geant4_11_3_0")
             "/site/pymkm/data/defaults/geant4_11_3_0").
    + vm_compute. reflexivity.
    + vm_compute. reflexivity.
  - apply (proj2 (get_default_txt_path_empty_filename w_dev "geant4_11_3_0")).
    + vm_compute. reflexivity.
    + vm_compute. reflexivity.
Defined.

(** A subdirectory that the scan of the code accepts is a valid source; one
    that it passes over is skipped. *)
Lemma is_source_by_scan (w : World) (d : PurePath) :
  is_dir w d = Ok true ->
  scan_subdirectories w [d] [] = Ok [name d] ->
  is_source w d.
Proof.
  intros Hd Hs. unfold is_source.
  destruct (scan_head_inv w d [] [] _ Hs) as [Hu|[Hm Hwf]]; [|now repeat split].
  rewrite (scan_unmarked w _ _ _ Hu) in Hs. discriminate Hs.
Qed.

Lemma well_formed_file_by_check (w : World) (f : PurePath) :
  check_txt_files w f [f] = Ok tt -> well_formed_file w f.
Proof.
  intros H. apply check_txt_files_inv in H. now inversion H.
Qed.

Lemma get_available_sources_exact_witness :
  get_available_sources w_good = Ok ["geant4_11_3_0"].
Proof.
  apply (proj2 (get_available_sources_exact w_good ["geant4_11_3_0"])).
  assert (skipped w_good (child defaults_dir "__init__.py")) as Hinit
    by (left; vm_compute; reflexivity).
  assert (is_source w_good (source_dir "geant4_11_3_0")) as Hgeant
    by (apply is_source_by_scan; vm_compute; reflexivity).
  assert (skipped w_good (source_dir "scratch")) as Hscratch
    by (right; split; vm_compute; reflexivity).
  exists defaults_dir,
    [child defaults_dir "__init__.py"; source_dir "geant4_11_3_0"; source_dir "scratch"],
    [source_dir "geant4_11_3_0"].
  split; [vm_compute; reflexivity|].
  split; [vm_compute; reflexivity|].
  split; [|split].
  - intros e [<-|[<-|[<-|[]]]]; [now left | now right | now left].
  - apply picks_skip; [now apply skipped_not_source|].
    apply picks_take; [exact Hgeant|].
    apply picks_skip; [now apply skipped_not_source|].
    apply picks_nil.
  - reflexivity.
Defined.

Lemma get_available_sources_malformed_witness :
  get_available_sources w_malformed
  = Raise (FileNotFoundError (malformed_message "geant4_11_3_0" ["Target"])).
Proof.
  refine (proj1 (get_available_sources_malformed w_malformed defaults_dir
           [child defaults_dir "__init__.py"; source_dir "fluka_2020_0"]
           [source_dir "mstar_3_12"]
           (source_dir "geant4_11_3_0")
           [child (source_dir "geant4_11_3_0") "__init__.py";
            child (source_dir "geant4_11_3_0") "helium.txt";
            child (source_dir "geant4_11_3_0") "carbon.txt"]
           [child (source_dir "geant4_11_3_0") "helium.txt"] []
           (child (source_dir "geant4_11_3_0") "carbon.txt")
           carbon_no_target_lines ["Target"] _ _ _ _ _ _ _ _ _ _ _ _)).
  - vm_compute. reflexivity.
  - vm_compute. reflexivity.
  - intros e [<-|[<-|[]]].
    + left. left. vm_compute. reflexivity.
    + right. apply is_source_by_scan; vm_compute; reflexivity.
  - intros e [<-|[]]. exists true. vm_compute. reflexivity.
  - vm_compute. reflexivity.
  - vm_compute. reflexivity.
  - vm_compute. reflexivity.
  - apply (picks_txt_files
             [child (source_dir "geant4_11_3_0") "__init__.py";
              child (source_dir "geant4_11_3_0") "helium.txt";
              child (source_dir "geant4_11_3_0") "carbon.txt"]).
  - constructor; [|constructor].
    apply well_formed_file_by_check. vm_compute. reflexivity.
  - vm_compute. reflexivity.
  - apply missing_keys_picks. vm_compute. reflexivity.
  - discriminate.
Defined.


(** * Further properties *)

(** ** Header lines *)

(** X1. The header holds a key exactly when some line declares it: the
    line has an ["="], and what stands before the first one is the key
    with nothing but white space around it, the key itself starting and
    ending with a character that is not white space.  Values, the order of
    the lines and repetitions play no part. *)
Theorem parse_header_declares (lines : list text) (k : text) :
  dict_mem k (parse_header lines) = true
  <-> exists line pad1 pad2 rest,
        In line lines
        /\ line = pad1 ++ k ++ pad2 ++ EQUALS :: rest
        /\ Forall (fun c => is_space c = true) pad1
        /\ Forall (fun c => is_space c = true) pad2
        /\ (forall c, hd_error k = Some c \/ hd_error (rev k) = Some c ->
                      is_space c = false)
        /\ ~ In EQUALS k.
Proof.
  rewrite dict_mem_declares. unfold declares, line_declares, blank, trimmed.
  split.
  - intros (line & Hin & pad1 & pad2 & rest & H). now exists line, pad1, pad2, rest.
  - intros (line & pad1 & pad2 & rest & Hin & H).
    exists line. split; [exact Hin|]. now exists pad1, pad2, rest.
Qed.

Lemma missing_keys_ext (h1 h2 : dict) :
  (forall k, dict_mem k h1 = dict_mem k h2) -> missing_keys h1 = missing_keys h2.
Proof.
  intros H. unfold missing_keys. apply filter_ext. intros k. now rewrite H.
Qed.

(** X2. The missing keys depend on the set of declared keys only: two
    files whose lines declare the same keys miss the same keys, so
    reordering the lines of a file changes nothing; and adding lines to a
    file never adds a missing key. *)
Theorem missing_keys_order_free (lines lines' more : list text) :
  ((forall k, declares lines k <-> declares lines' k) ->
   missing_keys (parse_header lines) = missing_keys (parse_header lines'))
  /\ (Permutation lines lines' ->
      missing_keys (parse_header lines) = missing_keys (parse_header lines'))
  /\ incl (missing_keys (parse_header (lines ++ more)))
          (missing_keys (parse_header lines)).
Proof.
  assert ((forall k, declares lines k <-> declares lines' k) ->
          missing_keys (parse_header lines) = missing_keys (parse_header lines')) as Hsame.
  { intros H. apply missing_keys_ext. intros k. apply eq_true_iff_eq.
    rewrite !dict_mem_declares. apply H. }
  split; [exact Hsame|]. split.
  - intros Hp. apply Hsame. intros k. unfold declares.
    split; intros (line & Hin & Hk); exists line; split; try assumption.
    + now apply (Permutation_in _ Hp).
    + now apply (Permutation_in _ (Permutation_sym Hp)).
  - intros k Hk. unfold missing_keys in *. apply filter_In in Hk. apply filter_In.
    destruct Hk as [Hreq Hk]. split; [exact Hreq|].
    apply negb_true_iff in Hk. apply negb_true_iff.
    rewrite dict_mem_parse_header in *. rewrite existsb_app in Hk.
    now apply orb_false_iff in Hk.
Qed.

Lemma missing_keys_order_free_witness :
  missing_keys (parse_header (rev carbon_no_target_lines)) = ["Target"]
  /\ incl (missing_keys (parse_header (carbon_no_target_lines ++ [to_text "Target=Water"])))
          ["Target"].
Proof.
  split.
  - change ["Target"] with (missing_keys (parse_header carbon_no_target_lines)).
    symmetry.
    apply (proj1 (proj2 (missing_keys_order_free carbon_no_target_lines
                           (rev carbon_no_target_lines) []))).
    apply Permutation_rev.
  - apply (proj2 (proj2 (missing_keys_order_free carbon_no_target_lines
                           carbon_no_target_lines [to_text "Target=Water"]))).
Defined.

(** X3. A line made of a key, white space around it - blanks, tabs, a
    no-break space or any other character that [str.isspace] accepts - an
    ["="] and anything after it - nothing at all, or text with further
    ["="] - puts the key into the header, so a required key written so is
    not reported missing: the validation looks at the presence of the key
    only. *)
Theorem padded_key_declared (lines : list text) (pad1 k pad2 v : text) :
  Forall (fun c => is_space c = true) pad1 ->
  Forall (fun c => is_space c = true) pad2 ->
  (forall c, hd_error k = Some c \/ hd_error (rev k) = Some c -> is_space c = false) ->
  ~ In EQUALS k ->
  In (pad1 ++ k ++ pad2 ++ EQUALS :: v) lines ->
  dict_mem k (parse_header lines) = true
  /\ forall key, to_text key = k -> ~ In key (missing_keys (parse_header lines)).
Proof.
  intros H1 H2 Ht Hk Hin.
  assert (dict_mem k (parse_header lines) = true) as Hmem.
  { apply dict_mem_declares. exists (pad1 ++ k ++ pad2 ++ EQUALS :: v).
    split; [exact Hin|]. now exists pad1, pad2, v. }
  split; [exact Hmem|].
  intros key <-. unfold missing_keys. rewrite filter_In. intros [_ H].
  now rewrite Hmem in H.
Qed.

Lemma padded_key_declared_witness :
  dict_mem (to_text "Target")
    (parse_header [[160; 9] ++ to_text "Target" ++ [160] ++ EQUALS :: []; to_text "1.0 2.0"]%N)
  = true
  /\ forall key,
       to_text key = to_text "Target" ->
       ~ In key
           (missing_keys
              (parse_header
                 [[160; 9] ++ to_text "Target" ++ [160] ++ EQUALS :: []; to_text "1.0 2.0"]%N)).
Proof.
  apply (padded_key_declared _ [160; 9]%N (to_text "Target") [160]%N []).
  - repeat constructor.
  - repeat constructor.
  - intros c [[= <-]|[= <-]]; reflexivity.
  - vm_compute. intuition discriminate.
  - left. reflexivity.
Defined.

(** The file of the no-break spaces is well-formed for the enumerator. *)
Example get_available_sources_nbsp :
  get_available_sources w_nbsp = Ok ["geant4_11_3_0"].
Proof. vm_compute. reflexivity. Qed.

(** ** The resolver beyond file names *)

Section ResolverEdges.

Variable w : World.

Lemma join_absolute_last (a : string) (p : list string) (filename : string) :
  starts_with_sep filename = true ->
  posixpath.join a (p ++ [filename]) = filename.
Proof.
  intros H. unfold posixpath.join. rewrite fold_left_app. simpl.
  unfold posixpath.join2. now rewrite H.
Qed.

Lemma local_txt_path_absolute (source filename : string) :
  starts_with_sep filename = true ->
  local_txt_path w source filename = posixpath.normpath filename.
Proof.
  intros H. unfold local_txt_path.
  rewrite (join_absolute_last _ [".."; "data"; "defaults"; source] filename H).
  unfold posixpath.abspath, posixpath.isabs. now rewrite H.
Qed.

Lemma rstrip_sep_empty (s : string) : is_empty (rstrip_sep s) = all_sep s.
Proof.
  induction s as [|a s IH]; simpl; [reflexivity|].
  rewrite <- IH. destruct (Ascii.eqb a sep); simpl; [|reflexivity].
  now destruct (is_empty (rstrip_sep s)).
Qed.

Lemma rpartition_starts_with_sep (o : string) :
  starts_with_sep o = true ->
  exists before after, rpartition sep o = Some (before, after)
                       /\ (before = "" \/ starts_with_sep before = true).
Proof.
  destruct o as [|a o]; simpl; [discriminate|]. intros Ha.
  destruct (rpartition sep o) as [[before after]|].
  - exists (String a before), after. split; [reflexivity|]. now right.
  - rewrite Ha. exists "", o. split; [reflexivity|]. now left.
Qed.

(** The directory of an absolute path is absolute. *)
Lemma dirname_absolute (o : string) :
  starts_with_sep o = true -> starts_with_sep (posixpath.dirname o) = true.
Proof.
  intros Ho. unfold posixpath.dirname.
  destruct (rpartition_starts_with_sep o Ho) as (before & after & -> & Hb).
  assert (starts_with_sep (before ++ String sep "") = true) as Hhead.
  { destruct Hb as [->|Hb]; [reflexivity|].
    destruct before; [discriminate | exact Hb]. }
  rewrite is_empty_app, andb_false_r. simpl.
  destruct (all_sep (before ++ String sep "")) eqn:Eall; simpl; [exact Hhead|].
  destruct (before ++ String sep "")%string as [|a h]; [discriminate|].
  simpl in Hhead. simpl. simpl in Eall. rewrite Hhead in *. simpl in *.
  now rewrite rstrip_sep_empty, Eall.
Qed.

Lemma join2_absolute (a b : string) :
  starts_with_sep a = true -> starts_with_sep (posixpath.join2 a b) = true.
Proof.
  intros Ha. unfold posixpath.join2.
  destruct (starts_with_sep b) eqn:Eb; simpl; [exact Eb|].
  assert (is_empty a = false) as Hne by now destruct a.
  rewrite Hne. destruct (ends_with_sep a); now rewrite starts_with_sep_app.
Qed.

Lemma normpath_absolute (x : string) :
  starts_with_sep x = true -> starts_with_sep (posixpath.normpath x) = true.
Proof.
  intros Hx. unfold posixpath.normpath.
  assert (is_empty x = false) as Hne by now destruct x.
  rewrite Hne.
  assert (exists n, posixpath.count_initial_slashes x = S n) as [n ->].
  { destruct x as [|a [|b [|c x]]]; simpl in *; try discriminate; rewrite Hx.
    - now exists 0.
    - destruct (Ascii.eqb b sep); eexists; reflexivity.
    - destruct (Ascii.eqb b sep && negb (Ascii.eqb c sep)); eexists; reflexivity. }
  reflexivity.
Qed.

Lemma abspath_absolute (cwd x : string) :
  starts_with_sep cwd = true -> starts_with_sep (posixpath.abspath cwd x) = true.
Proof.
  intros Hc. unfold posixpath.abspath, posixpath.isabs. apply normpath_absolute.
  destruct (starts_with_sep x) eqn:Ex; [exact Ex | now apply join2_absolute].
Qed.

End ResolverEdges.

(** X4. An absolute [filename] takes the resolver out of the registry:
    both joins drop everything before it, so the installed tier answers
    with [filename] itself when that path exists, and the local tier with
    its normal form, whatever the source. *)
Theorem get_default_txt_path_absolute_filename (w : World) (source filename : string) :
  starts_with_sep filename = true ->
  (forall d, installed_source_dir w source = Some d ->
             path_exists w filename = true ->
             get_default_txt_path w source filename = Ok filename)
  /\ (in_installed_tier w source filename = false ->
      path_exists w (posixpath.normpath filename) = true ->
      get_default_txt_path w source filename = Ok (posixpath.normpath filename)).
Proof.
  intros Habs. split.
  - intros d Hd He. rewrite get_default_txt_path_cases.
    unfold in_installed_tier, installed_candidate. rewrite Hd.
    change (posixpath.join d [filename]) with (posixpath.join d ([] ++ [filename])).
    rewrite (join_absolute_last d [] filename Habs). now rewrite He.
  - intros Hi He. rewrite get_default_txt_path_cases, Hi.
    unfold in_local_tier. rewrite (local_txt_path_absolute w source filename Habs).
    now rewrite He.
Qed.

Lemma get_default_txt_path_absolute_filename_witness :
  get_default_txt_path w_good "geant4_11_3_0" "/site/pymkm/data/elements.json"
  = Ok "/site/pymkm/data/elements.json"
  /\ get_default_txt_path w_dev "nosuch" "/dev/pymkm/io/../data/elements.json"
     = Ok "/dev/pymkm/data/elements.json".
Proof.
  split.
  - apply (proj1 (get_default_txt_path_absolute_filename w_good "geant4_11_3_0"
                    "/site/pymkm/data/elements.json" eq_refl)
             "/site/pymkm/data/defaults/geant4_11_3_0").
    + vm_compute. reflexivity.
    + vm_compute. reflexivity.
  - apply (proj2 (get_default_txt_path_absolute_filename w_dev "nosuch"
                    "/dev/pymkm/io/../data/elements.json" eq_refl)).
    + vm_compute. reflexivity.
    + vm_compute. reflexivity.
Defined.

(** X5. The path the resolver returns is absolute, as its docstring says,
    once the working directory is absolute and the import system reports
    absolute origins. *)
Theorem get_default_txt_path_absolute_result (w : World) (source filename p : string) :
  starts_with_sep (getcwd w) = true ->
  (forall sp o, find_spec w ("pymkm.data.defaults." ++ source)%string = Ok (Some sp) ->
                origin sp = Some o -> starts_with_sep o = true) ->
  get_default_txt_path w source filename = Ok p ->
  starts_with_sep p = true.
Proof.
  intros Hcwd Horigin. rewrite get_default_txt_path_cases.
  destruct (in_installed_tier w source filename) eqn:Hi.
  - unfold in_installed_tier in Hi.
    destruct (installed_candidate w source filename) as [c|] eqn:Hc; [|discriminate Hi].
    intros [= <-]. unfold installed_candidate, installed_source_dir in Hc.
    destruct (find_spec w _) as [[sp|]|e] eqn:Hs; try discriminate Hc.
    destruct (origin sp) as [o|] eqn:Ho; try discriminate Hc.
    injection Hc as <-. unfold posixpath.join. simpl.
    apply join2_absolute, dirname_absolute. now apply (Horigin sp o).
  - destruct (in_local_tier w source filename); [|discriminate].
    intros [= <-]. unfold local_txt_path. now apply abspath_absolute.
Qed.

Lemma get_default_txt_path_absolute_result_witness :
  starts_with_sep "/site/pymkm/data/defaults/geant4_11_3_0/carbon.txt" = true.
Proof.
  apply (get_default_txt_path_absolute_result w_good "geant4_11_3_0" "carbon.txt").
  - reflexivity.
  - intros sp o Hs Ho. vm_compute in Hs. injection Hs as <-.
    simpl in Ho. injection Ho as <-. reflexivity.
  - vm_compute. reflexivity.
Defined.

(** ** The lister and its neighbours *)

Section ListerFacts.

Variable w : World.

Lemma name_child (p : PurePath) (n : string) : name (child p n) = n.
Proof. unfold name, child. simpl. apply last_last. Qed.

Lemma list_available_defaults_inv (source : string) (names : list string) :
  list_available_defaults w source = Ok names ->
  exists folder entries,
    iterdir w folder = Ok entries
    /\ names = map name (filter has_txt_suffix entries).
Proof.
  destruct (installed_listing w source) as [entries|e] eqn:Hi.
  - rewrite (list_available_defaults_installed w source entries Hi).
    intros [= <-]. unfold installed_listing in Hi.
    destruct (files w _) as [folder|e]; [|discriminate]. simpl in Hi.
    now exists folder, entries.
  - rewrite (list_available_defaults_handler w source e Hi).
    destruct (find_spec w _) as [spec|e1]; simpl; [|discriminate].
    destruct (truthy_origin spec) as [o|]; [|discriminate].
    unfold list_txt_names.
    destruct (iterdir w (parent (parse o))) as [entries|e2] eqn:Hl; simpl; [|discriminate].
    intros [= <-]. now exists (parent (parse o)), entries.
Qed.

Lemma lookup_entry_in (n : string) (es : list (string * node)) :
  In n (map fst es) -> exists x, lookup_entry n es = Some x.
Proof.
  induction es as [|[k x] es IH]; simpl; [contradiction|].
  intros [->|H].
  - rewrite String.eqb_refl. now exists x.
  - destruct (String.eqb k n); [now exists x | now apply IH].
Qed.

Lemma walk_file_name (fs : node) (stack : list node) (es : list (string * node))
    (n : string) (x : node) :
  searchable_entries (hd fs stack) n = inr es ->
  is_file_name n = true -> lookup_entry n es = Some x ->
  walk fs stack [n] = inr (x :: stack).
Proof.
  intros Hd Hn Hl. destruct (is_file_name_inv n Hn) as (He & _ & Hdot & Hdd).
  simpl. rewrite Hd.
  assert (String.eqb n "" = false) as E0 by (destruct n; [discriminate | reflexivity]).
  now rewrite E0, Hdot, Hdd, Hl.
Qed.

(** An entry of a directory that the process may search is found under
    the directory's path joined with the entry's name. *)
Lemma resolve_child (fs : node) (cwd d n : string) (nd : node)
    (es : list (string * node)) (x : node) :
  resolve fs cwd d = inr nd ->
  is_directory nd = true ->
  searchable_entries nd n = inr es ->
  is_file_name n = true ->
  lookup_entry n es = Some x ->
  resolve fs cwd (posixpath.join2 d n) = inr x.
Proof.
  intros Hd Hdir Hse Hn Hl. destruct (is_file_name_inv n Hn) as (He & Hs & _ & _).
  assert (is_empty d = false) as Hne.
  { destruct d; [discriminate Hd | reflexivity]. }
  assert (exists q, sep_closed q /\ is_empty q = false
                    /\ posixpath.join2 d n = (q ++ n)%string
                    /\ resolve fs cwd q = inr nd) as (q & Hq & Hqe & -> & Hrq).
  { unfold posixpath.join2. rewrite (file_name_not_absolute n Hs), Hne. simpl.
    destruct (ends_with_sep d) eqn:Es.
    - exists d. repeat split; try assumption. now right.
    - exists (d ++ String sep "")%string. repeat split.
      + right. apply ends_with_sep_snoc.
      + now rewrite is_empty_app, Hne.
      + now rewrite string_app_assoc.
      + now apply resolve_trailing_sep. }
  destruct Hq as [->|Hq]; [discriminate Hqe|].
  destruct (ends_with_sep_inv q Hq) as [q0 ->].
  unfold resolve in *. rewrite Hqe in Hrq.
  rewrite is_empty_app, Hqe. simpl andb. cbv iota.
  unfold posixpath.isabs in *.
  rewrite (starts_with_sep_app (q0 ++ String sep "") n Hqe).
  destruct (if starts_with_sep (q0 ++ String sep "")
            then inr [] else walk fs [] (split_char sep cwd)) as [e|stack];
    [discriminate Hrq|].
  rewrite string_app_assoc. simpl append at 2.
  rewrite split_char_app in *. rewrite (split_char_absent sep n Hs).
  rewrite walk_app in *.
  destruct (walk fs stack (split_char sep q0)) as [e|st]; [discriminate Hrq|].
  simpl in Hrq.
  destruct (searchable_entries (hd fs st) "") as [e|es']; [discriminate Hrq|].
  injection Hrq as Hhd. rewrite <- Hhd in Hse.
  now rewrite (walk_file_name fs st es n x Hse Hn Hl).
Qed.

End ListerFacts.

(** X6. Every name the lister returns ends in [.txt] after a non-empty
    stem: an entry named just [.txt] is never listed. *)
Theorem list_available_defaults_txt_names (w : World) (source : string)
    (names : list string) :
  list_available_defaults w source = Ok names ->
  Forall (fun n => exists stem, stem <> "" /\ n = (stem ++ ".txt")%string) names.
Proof.
  intros H.
  destruct (list_available_defaults_inv w source names H) as (folder & entries & _ & ->).
  apply Forall_forall. intros n Hn. apply in_map_iff in Hn.
  destruct Hn as (f & <- & Hf). apply filter_In in Hf.
  now apply has_txt_suffix_name.
Qed.

Lemma list_available_defaults_txt_names_witness :
  Forall (fun n => exists stem, stem <> "" /\ n = (stem ++ ".txt")%string)
    ["helium.txt"; "carbon.txt"].
Proof.
  apply (list_available_defaults_txt_names w_malformed "geant4_11_3_0").
  vm_compute. reflexivity.
Defined.

(** X7. What the lister lists the resolver finds: when the import system
    places the package of a source in the directory it reports as origin,
    a directory the process may list and search, every file name the
    lister returns for the source resolves, in the installed tier, to that
    name inside the directory. *)
Theorem listed_files_resolve (w : World) (source : string) (d : PurePath)
    (names : list string) (f : string) :
  files w ("pymkm.data.defaults." ++ source)%string = Ok d ->
  accessible_dir w d = true ->
  installed_source_dir w source = Some (str d) ->
  list_available_defaults w source = Ok names ->
  In f names ->
  is_file_name f = true ->
  get_default_txt_path w source f = Ok (posixpath.join (str d) [f])
  /\ path_exists w (posixpath.join (str d) [f]) = true.
Proof.
  intros Hfiles Hdir Hsrc Hlist Hin Hname.
  unfold accessible_dir in Hdir.
  destruct (stat w (str d)) as [e|nd] eqn:Hstat; [discriminate|].
  assert (exists es, is_directory nd = true
                     /\ (forall n, searchable_entries nd n = inr es)
                     /\ iterdir w d = Ok (map (fun e => child d (fst e)) es))
    as (es & Hnd & Hse & Hiter).
  { unfold iterdir. rewrite Hstat.
    destruct nd as [c| |es|[|] [|] es]; try discriminate Hdir; exists es;
      repeat split. }
  assert (installed_listing w source = Ok (map (fun e => child d (fst e)) es)) as Hinst.
  { unfold installed_listing. rewrite Hfiles. exact Hiter. }
  rewrite (list_available_defaults_installed w source _ Hinst) in Hlist.
  injection Hlist as <-.
  apply in_map_iff in Hin. destruct Hin as (p & Hp & Hin).
  apply filter_In in Hin. destruct Hin as [Hin _].
  apply in_map_iff in Hin. destruct Hin as ([n x] & <- & Hin).
  rewrite name_child in Hp. simpl in Hp. subst f.
  destruct (lookup_entry_in n es) as [x' Hx'].
  { apply in_map_iff. now exists (n, x). }
  assert (path_exists w (posixpath.join (str d) [n]) = true) as Hex.
  { unfold path_exists, stat, posixpath.join. simpl.
    now rewrite (resolve_child (fs_root w) (getcwd w) (str d) n nd es x'
                   Hstat Hnd (Hse n) Hname Hx'). }
  split; [|exact Hex].
  rewrite get_default_txt_path_cases.
  unfold in_installed_tier, installed_candidate. rewrite Hsrc. now rewrite Hex.
Qed.

Lemma listed_files_resolve_witness :
  get_default_txt_path w_malformed "geant4_11_3_0" "carbon.txt"
  = Ok "/site/pymkm/data/defaults/geant4_11_3_0/carbon.txt"
  /\ path_exists w_malformed "/site/pymkm/data/defaults/geant4_11_3_0/carbon.txt" = true.
Proof.
  apply (listed_files_resolve w_malformed "geant4_11_3_0" (source_dir "geant4_11_3_0")
           ["helium.txt"; "carbon.txt"] "carbon.txt").
  - vm_compute. reflexivity.
  - vm_compute. reflexivity.
  - vm_compute. reflexivity.
  - vm_compute. reflexivity.
  - right. left. reflexivity.
  - reflexivity.
Defined.

(** X8. The files of a source the enumerator returns are well-formed in
    the lister's eyes too: when the import system maps each valid source
    to its directory, every name the enumerator returns is the name of a
    directory on which the lister succeeds, listing the text files of that
    directory, each of which can be read and declares every required
    key. *)
Theorem enumerated_sources_list_well_formed (w : World) (l : list string) (s : string) :
  (forall base entries d,
      files w "pymkm.data.defaults" = Ok base ->
      iterdir w base = Ok entries ->
      In d entries ->
      is_source w d ->
      files w ("pymkm.data.defaults." ++ name d)%string = Ok d) ->
  get_available_sources w = Ok l ->
  In s l ->
  exists d dentries fs,
    name d = s
    /\ iterdir w d = Ok dentries
    /\ picks txt_file dentries fs
    /\ list_available_defaults w s = Ok (map name fs)
    /\ Forall (well_formed_file w) fs.
Proof.
  intros Hcoh Hres Hin.
  destruct (get_available_sources_root w l Hres)
    as (base & entries & subs & Hb & He & Hf & Hs).
  pose proof (filter_result_inv w entries subs Hf) as Hkind.
  rewrite (filter_result_total w entries Hkind) in Hf. injection Hf as <-.
  pose proof (scan_inv w entries [] l Hkind Hs) as Hall.
  destruct (picks_sources w entries Hall) as [ds Hds].
  rewrite (scan_picks w entries [] ds Hall Hds) in Hs. injection Hs as <-.
  simpl in Hin. apply in_map_iff in Hin. destruct Hin as (d & <- & Hd).
  apply (picks_In _ _ _ Hds) in Hd. destruct Hd as [Hd Hsrc].
  pose proof (Hcoh base entries d Hb He Hd Hsrc) as Hfiles.
  destruct Hsrc as (_ & _ & dentries & Hi & Hwf).
  exists d, dentries, (filter has_txt_suffix dentries).
  split; [reflexivity|]. split; [exact Hi|]. split; [apply picks_txt_files|]. split.
  - apply list_available_defaults_installed.
    unfold installed_listing. rewrite Hfiles. exact Hi.
  - apply Forall_forall. intros f Hf. apply filter_In in Hf. destruct Hf as [Hf Hs].
    apply Hwf; [exact Hf | now apply has_txt_suffix_spec].
Qed.

Lemma enumerated_sources_list_well_formed_witness :
  exists d dentries fs,
    name d = "geant4_11_3_0"
    /\ iterdir w_good d = Ok dentries
    /\ picks txt_file dentries fs
    /\ list_available_defaults w_good "geant4_11_3_0" = Ok (map name fs)
    /\ Forall (well_formed_file w_good) fs.
Proof.
  apply (enumerated_sources_list_well_formed w_good ["geant4_11_3_0"]).
  - intros base entries d Hb He Hd Hv.
    vm_compute in Hb. injection Hb as <-.
    vm_compute in He. injection He as <-.
    destruct Hd as [<-|[<-|[<-|[]]]].
    + destruct Hv as (Hv & _). vm_compute in Hv. discriminate Hv.
    + vm_compute. reflexivity.
    + destruct Hv as (_ & Hv & _). vm_compute in Hv. discriminate Hv.
  - vm_compute. reflexivity.
  - left. reflexivity.
Defined.

(** ** The loader and its two tiers *)

(** X9. An error of the loader is always the error of reading or parsing
    the local file: what went wrong in the installed tier is never
    reported. *)
Theorem load_lookup_table_error_is_local (json : Type)
    (json_loads : text -> result json) (w : World) (e : exn) :
  load_lookup_table json_loads w = Raise e ->
  load_json_file json_loads w (local_elements_path w) = Raise e.
Proof.
  unfold load_lookup_table.
  destruct (pkg <- files w "pymkm.data" ;;
            load_json_file json_loads w (str (truediv pkg "elements.json")))
    as [v|e0]; simpl; [discriminate | trivial].
Qed.

Lemma load_lookup_table_error_is_local_witness :
  load_json_file Json.loads w_split_no_local (local_elements_path w_split_no_local)
  = Raise (FileNotFoundError "/dev/pymkm/data/elements.json").
Proof.
  apply (load_lookup_table_error_is_local Json.value Json.loads w_split_no_local).
  vm_compute. reflexivity.
Defined.

(** X10. Where both tiers see the same text - one installation, reached
    both ways - the loader returns exactly what the parser makes of it,
    value or error. *)
Theorem load_lookup_table_single_tree (json : Type)
    (json_loads : text -> result json) (w : World) (content : text) :
  installed_elements w = Some content ->
  local_elements w = Some content ->
  load_lookup_table json_loads w = json_loads (translate_newlines false content).
Proof.
  intros Hi Hl.
  rewrite (load_lookup_table_installed json json_loads w content Hi).
  destruct (json_loads (translate_newlines false content)) as [v|e] eqn:Hp; [reflexivity|].
  now rewrite (load_json_file_content json json_loads w _ content Hl).
Qed.

Lemma load_lookup_table_single_tree_witness :
  load_lookup_table Json.loads w_good
  = Json.loads (translate_newlines false (to_text elements_json)).
Proof.
  apply (load_lookup_table_single_tree Json.value Json.loads w_good (to_text elements_json)).
  - vm_compute. reflexivity.
  - vm_compute. reflexivity.
Defined.

(** X11. A well-formed local file makes the loader succeed whatever the
    installed tier holds, and says what it returns: the value of the
    installed file when there is one and it parses, and the value of the
    local file in every other case. *)
Theorem load_lookup_table_local_rescue (json : Type)
    (json_loads : text -> result json) (w : World) (content : text) (x : json) :
  local_elements w = Some content ->
  json_loads (translate_newlines false content) = Ok x ->
  load_lookup_table json_loads w
  = Ok match installed_elements w with
       | Some installed =>
           match json_loads (translate_newlines false installed) with
           | Ok y => y
           | Raise _ => x
           end
       | None => x
       end.
Proof.
  intros Hl Hx.
  assert (load_json_file json_loads w (local_elements_path w) = Ok x) as Hlocal.
  { now rewrite (load_json_file_content json json_loads w _ content Hl). }
  destruct (installed_elements w) as [installed|] eqn:Hi.
  - rewrite (load_lookup_table_installed json json_loads w installed Hi).
    destruct (json_loads (translate_newlines false installed)) as [y|e] eqn:Hp;
      [reflexivity | exact Hlocal].
  - now rewrite (load_lookup_table_fallback json json_loads w Hi).
Qed.

Lemma load_lookup_table_local_rescue_witness :
  load_lookup_table Json.loads w_split = Ok hydrogen
  /\ load_lookup_table Json.loads w_dev = Ok hydrogen.
Proof.
  split.
  - change (Ok hydrogen)
      with (Ok match installed_elements w_split with
               | Some installed =>
                   match Json.loads (translate_newlines false installed) with
                   | Ok y => y
                   | Raise _ => hydrogen
                   end
               | None => hydrogen
               end).
    apply (load_lookup_table_local_rescue Json.value Json.loads w_split
             (to_text elements_json)).
    + vm_compute. reflexivity.
    + vm_compute. reflexivity.
  - change (Ok hydrogen)
      with (Ok match installed_elements w_dev with
               | Some installed =>
                   match Json.loads (translate_newlines false installed) with
                   | Ok y => y
                   | Raise _ => hydrogen
                   end
               | None => hydrogen
               end).
    apply (load_lookup_table_local_rescue Json.value Json.loads w_dev
             (to_text elements_json)).
    + vm_compute. reflexivity.
    + vm_compute. reflexivity.
Defined.

(** ** The plotting method *)

Module plot_facts.

Import mktable_plot.

Lemma mem_allowed_x (x : string) :
  mem x allowed_x = true <-> x = "energy" \/ x = "let".
Proof.
  unfold mem, allowed_x. simpl. rewrite orb_false_r, orb_true_iff, !String.eqb_eq.
  split; intros [H|H]; auto.
Qed.

Lemma mem_allowed_y (y : string) :
  mem y allowed_y = true <->
  y = "z_bar_star_domain" \/ y = "z_bar_domain" \/ y = "z_bar_nucleus".
Proof.
  unfold mem, allowed_y. simpl.
  rewrite orb_false_r, !orb_true_iff, !String.eqb_eq.
  split; intros [H|[H|H]]; auto.
Qed.

Lemma validate_done (x y : string) :
  _validate_plot_columns x y = Done tt <->
  mem x allowed_x = true /\ mem y allowed_y = true.
Proof.
  unfold _validate_plot_columns.
  destruct (mem x allowed_x), (mem y allowed_y); cbv beta iota delta [negb].
  - split; [intros _; split; reflexivity | intros _; reflexivity].
  - split; [discriminate | intros [_ H]; discriminate H].
  - split; [discriminate | intros [H _]; discriminate H].
  - split; [discriminate | intros [H _]; discriminate H].
Qed.

Lemma lookup_some_in (k : string) (d : list (string * string)) (v : string) :
  lookup k d = Some v -> In k (map fst d).
Proof.
  induction d as [|[k' v'] d IH]; simpl; [discriminate|].
  destruct (String.eqb k' k) eqn:E.
  - apply String.eqb_eq in E. now left.
  - intros H. right. now apply IH.
Qed.

Lemma map_outcome_done_inv {A B : Type} (f : A -> outcome B) (l : list A) :
  forall e, map_outcome f l = Fail e -> exists a, In a l /\ f a = Fail e.
Proof.
  induction l as [|a l IH]; simpl; intros e; [discriminate|].
  destruct (f a) as [b|e0] eqn:Hf; simpl.
  - destruct (map_outcome f l) as [bs|e1]; simpl; [discriminate|].
    intros [= <-]. destruct (IH e1 eq_refl) as (a' & Hin & Ha').
    exists a'. split; [now right | exact Ha'].
  - intros [= <-]. exists a. split; [now left | exact Hf].
Qed.

End plot_facts.

(** X12. The column check lets through exactly the two x columns with
    the three y columns.  It looks at x first: a wrong x is reported
    whatever y is, and each message quotes the wrong name and lists the
    allowed ones in sorted order. *)
Theorem validate_plot_columns_spec (x y : string) :
  (mktable_plot._validate_plot_columns x y = mktable_plot.Done tt <->
   (x = "energy" \/ x = "let")
   /\ (y = "z_bar_star_domain" \/ y = "z_bar_domain" \/ y = "z_bar_nucleus"))
  /\ (x <> "energy" -> x <> "let" ->
      mktable_plot._validate_plot_columns x y
      = mktable_plot.Fail
          (mktable_plot.ValueError
             ("Invalid x-axis: '" ++ x
                ++ "'. Allowed values are: ['energy', 'let']")%string))
  /\ (x = "energy" \/ x = "let" ->
      y <> "z_bar_star_domain" -> y <> "z_bar_domain" -> y <> "z_bar_nucleus" ->
      mktable_plot._validate_plot_columns x y
      = mktable_plot.Fail
          (mktable_plot.ValueError
             ("Invalid y-axis: '" ++ y
                ++ "'. Allowed values are: "
                ++ "['z_bar_domain', 'z_bar_nucleus', 'z_bar_star_domain']")%string)).
Proof.
  split; [|split].
  - rewrite plot_facts.validate_done, plot_facts.mem_allowed_x, plot_facts.mem_allowed_y.
    reflexivity.
  - intros H1 H2. unfold mktable_plot._validate_plot_columns.
    destruct (mktable_plot.mem x mktable_plot.allowed_x) eqn:E.
    + apply plot_facts.mem_allowed_x in E. tauto.
    + reflexivity.
  - intros Hx H1 H2 H3. unfold mktable_plot._validate_plot_columns.
    apply plot_facts.mem_allowed_x in Hx. rewrite Hx.
    destruct (mktable_plot.mem y mktable_plot.allowed_y) eqn:E.
    + apply plot_facts.mem_allowed_y in E. tauto.
    + reflexivity.
Qed.

Lemma validate_plot_columns_spec_witness :
  mktable_plot._validate_plot_columns "LET" "z_bar"
  = mktable_plot.Fail
      (mktable_plot.ValueError
         "Invalid x-axis: 'LET'. Allowed values are: ['energy', 'let']")
  /\ mktable_plot._validate_plot_columns "let" "z_bar"
     = mktable_plot.Fail
         (mktable_plot.ValueError
            ("Invalid y-axis: 'z_bar'. Allowed values are: "
               ++ "['z_bar_domain', 'z_bar_nucleus', 'z_bar_star_domain']")%string).
Proof.
  split.
  - apply (proj1 (proj2 (validate_plot_columns_spec "LET" "z_bar"))); discriminate.
  - apply (proj2 (proj2 (validate_plot_columns_spec "let" "z_bar")));
      [now right | discriminate | discriminate | discriminate].
Defined.

(** X13. The label tables hold a label exactly for the columns the check
    lets through: after a successful check both lookups succeed, and the
    capitalised fallback names are never used. *)
Theorem plot_labels_cover_columns (x y : string) :
  (mktable_plot.lookup x mktable_plot.x_label_map <> None <->
   mktable_plot.mem x mktable_plot.allowed_x = true)
  /\ (mktable_plot.lookup y mktable_plot.y_label_map <> None <->
      mktable_plot.mem y mktable_plot.allowed_y = true)
  /\ (mktable_plot._validate_plot_columns x y = mktable_plot.Done tt ->
      mktable_plot.lookup x mktable_plot.x_label_map = Some (mktable_plot.x_label x)
      /\ mktable_plot.lookup y mktable_plot.y_label_map = Some (mktable_plot.y_label y)).
Proof.
  assert (forall k d, mktable_plot.lookup k d <> None <->
                      mktable_plot.mem k (map fst d) = true) as Hkeys.
  { intros k d. induction d as [|[k' v] d IH]; simpl.
    - split; [intros H; now contradiction H | discriminate].
    - rewrite (String.eqb_sym k k'). destruct (String.eqb k' k); simpl.
      + split; [reflexivity | discriminate].
      + exact IH. }
  split; [apply (Hkeys x mktable_plot.x_label_map)|].
  split; [apply (Hkeys y mktable_plot.y_label_map)|].
  intros H. apply plot_facts.validate_done in H. destruct H as [Hx Hy].
  apply (Hkeys x mktable_plot.x_label_map) in Hx.
  apply (Hkeys y mktable_plot.y_label_map) in Hy.
  unfold mktable_plot.x_label, mktable_plot.y_label.
  destruct (mktable_plot.lookup x mktable_plot.x_label_map); [|now contradiction Hx].
  destruct (mktable_plot.lookup y mktable_plot.y_label_map); [|now contradiction Hy].
  now split.
Qed.

Lemma plot_labels_cover_columns_witness :
  mktable_plot.lookup "let" mktable_plot.x_label_map = Some (mktable_plot.x_label "let")
  /\ mktable_plot.lookup "z_bar_domain" mktable_plot.y_label_map
     = Some (mktable_plot.y_label "z_bar_domain").
Proof.
  apply (proj2 (proj2 (plot_labels_cover_columns "let" "z_bar_domain"))).
  reflexivity.
Defined.

(** X14. A plot that completes had everything in place: computed
    results, ion names that all map to full names, valid columns, limits
    computed, a source among the three in the title table, and a drawing
    that went through, with labels and scale taken from the columns. *)
Theorem plot_done_inv (frame limits : Type)
    (axis_limits : mktable_plot.MKTable frame -> list string -> string -> string
                   -> mktable_plot.outcome limits)
    (draw : mktable_plot.MKTable frame -> list string -> string -> string -> bool
            -> limits -> string -> string -> string -> string
            -> mktable_plot.outcome unit)
    (self : mktable_plot.MKTable frame) (ions : option (list mktable_plot.ion_id))
    (x y : string) (verbose : bool) (u : unit) :
  mktable_plot.plot axis_limits draw self ions x y verbose = mktable_plot.Done u ->
  mktable_plot.table self <> []
  /\ mktable_plot._validate_plot_columns x y = mktable_plot.Done tt
  /\ In (mktable_plot.source_info self)
        ["default:fluka_2020_0"; "default:geant4_11_3_0"; "default:mstar_3_12"]
  /\ exists ids names lims title,
      mktable_plot.chosen_ions self ions = mktable_plot.Done ids
      /\ mktable_plot.map_outcome (mktable_plot._map_to_fullname self) ids
         = mktable_plot.Done names
      /\ axis_limits self names x y = mktable_plot.Done lims
      /\ mktable_plot.plot_title self = mktable_plot.Done title
      /\ draw self names x y verbose lims title
           (mktable_plot.x_label x) (mktable_plot.y_label y) (mktable_plot.x_scale x)
         = mktable_plot.Done u.
Proof.
  unfold mktable_plot.plot.
  destruct (mktable_plot.table self) as [|r t] eqn:Ht; [discriminate|].
  destruct (mktable_plot.chosen_ions self ions) as [ids|e] eqn:Hids; simpl; [|discriminate].
  destruct (mktable_plot.map_outcome (mktable_plot._map_to_fullname self) ids)
    as [names|e] eqn:Hnames; simpl; [|discriminate].
  destruct (mktable_plot._validate_plot_columns x y) as [[]|e]; simpl; [|discriminate].
  destruct (axis_limits self names x y) as [lims|e] eqn:Hl; simpl; [|discriminate].
  destruct (mktable_plot.plot_title self) as [title|e] eqn:Htitle; simpl; [|discriminate].
  intros Hdraw. split; [discriminate|]. split; [reflexivity|]. split.
  - unfold mktable_plot.plot_title in Htitle.
    destruct (mktable_plot.lookup (mktable_plot.source_info self)
                mktable_plot.source_info_map) eqn:Hsrc; [|discriminate].
    exact (plot_facts.lookup_some_in _ _ _ Hsrc).
  - exists ids, names, lims, title.
    split; [reflexivity|]. split; [exact Hnames|]. split; [exact Hl|].
    split; [reflexivity | exact Hdraw].
Qed.

Lemma plot_done_inv_witness :
  mktable_plot.table (mktable_plot.carbon_table "default:geant4_11_3_0") <> []
  /\ mktable_plot._validate_plot_columns "let" "z_bar_domain" = mktable_plot.Done tt
  /\ In "default:geant4_11_3_0"
        ["default:fluka_2020_0"; "default:geant4_11_3_0"; "default:mstar_3_12"].
Proof.
  destruct (plot_done_inv unit unit
              (fun _ _ _ _ => mktable_plot.Done tt)
              (fun _ _ _ _ _ _ _ _ _ _ => mktable_plot.Done tt)
              (mktable_plot.carbon_table "default:geant4_11_3_0")
              None "let" "z_bar_domain" false tt eq_refl) as (H1 & H2 & H3 & _).
  exact (conj H1 (conj H2 H3)).
Defined.

(** X15. With a source that is not one of the three defaults the method
    cannot draw: once the results, the ion names, the columns and the
    limits are in order it fails with a [KeyError] for the source, before
    any figure exists. *)
Theorem plot_unknown_source (frame limits : Type)
    (axis_limits : mktable_plot.MKTable frame -> list string -> string -> string
                   -> mktable_plot.outcome limits)
    (draw : mktable_plot.MKTable frame -> list string -> string -> string -> bool
            -> limits -> string -> string -> string -> string
            -> mktable_plot.outcome unit)
    (self : mktable_plot.MKTable frame) (ions : option (list mktable_plot.ion_id))
    (x y : string) (verbose : bool)
    (ids : list mktable_plot.ion_id) (names : list string) (lims : limits) :
  mktable_plot.lookup (mktable_plot.source_info self) mktable_plot.source_info_map = None ->
  mktable_plot.table self <> [] ->
  mktable_plot.chosen_ions self ions = mktable_plot.Done ids ->
  mktable_plot.map_outcome (mktable_plot._map_to_fullname self) ids
  = mktable_plot.Done names ->
  mktable_plot._validate_plot_columns x y = mktable_plot.Done tt ->
  axis_limits self names x y = mktable_plot.Done lims ->
  mktable_plot.plot axis_limits draw self ions x y verbose
  = mktable_plot.Fail (mktable_plot.KeyError (mktable_plot.source_info self)).
Proof.
  intros Hsrc Ht Hids Hnames Hcols Hlims. unfold mktable_plot.plot.
  destruct (mktable_plot.table self); [now contradiction Ht|].
  rewrite Hids. simpl. rewrite Hnames. simpl. rewrite Hcols. simpl.
  rewrite Hlims. simpl. unfold mktable_plot.plot_title. now rewrite Hsrc.
Qed.

Lemma plot_unknown_source_witness :
  mktable_plot.plot (fun _ _ _ _ => mktable_plot.Done tt)
    (fun _ _ _ _ _ _ _ _ _ _ => mktable_plot.Done tt)
    (mktable_plot.carbon_table "user:measured") (Some [inl "C"]) "energy"
    "z_bar_star_domain" true
  = mktable_plot.Fail (mktable_plot.KeyError "user:measured").
Proof.
  apply (plot_unknown_source unit unit (fun _ _ _ _ => mktable_plot.Done tt)
           (fun _ _ _ _ _ _ _ _ _ _ => mktable_plot.Done tt)
           (mktable_plot.carbon_table "user:measured") (Some [inl "C"]) "energy"
           "z_bar_star_domain" true [inl "C"] ["Carbon"] tt).
  - reflexivity.
  - discriminate.
  - reflexivity.
  - reflexivity.
  - reflexivity.
  - reflexivity.
Defined.

(** X16. The order of the checks: without computed results the method
    fails with a [RuntimeError] whatever the other arguments; an empty
    list of ions stands for all available ions, like no list; an ion that
    does not map to a full name fails the call with the mapper's error
    even when the columns are wrong too, the columns being checked only
    after every ion has been mapped. *)
Theorem plot_check_order (frame limits : Type)
    (axis_limits : mktable_plot.MKTable frame -> list string -> string -> string
                   -> mktable_plot.outcome limits)
    (draw : mktable_plot.MKTable frame -> list string -> string -> string -> bool
            -> limits -> string -> string -> string -> string
            -> mktable_plot.outcome unit)
    (self : mktable_plot.MKTable frame) (ions : option (list mktable_plot.ion_id))
    (x y : string) (verbose : bool) :
  (mktable_plot.table self = [] ->
   mktable_plot.plot axis_limits draw self ions x y verbose
   = mktable_plot.Fail
       (mktable_plot.RuntimeError
          "No computed results found. Please run 'compute()' before plotting."))
  /\ mktable_plot.plot axis_limits draw self (Some []) x y verbose
     = mktable_plot.plot axis_limits draw self None x y verbose
  /\ (forall ids e,
        mktable_plot.table self <> [] ->
        mktable_plot.chosen_ions self ions = mktable_plot.Done ids ->
        mktable_plot.map_outcome (mktable_plot._map_to_fullname self) ids
        = mktable_plot.Fail e ->
        mktable_plot.plot axis_limits draw self ions x y verbose = mktable_plot.Fail e
        /\ exists i, In i ids /\ mktable_plot._map_to_fullname self i = mktable_plot.Fail e)
  /\ (forall ids names e,
        mktable_plot.table self <> [] ->
        mktable_plot.chosen_ions self ions = mktable_plot.Done ids ->
        mktable_plot.map_outcome (mktable_plot._map_to_fullname self) ids
        = mktable_plot.Done names ->
        mktable_plot._validate_plot_columns x y = mktable_plot.Fail e ->
        mktable_plot.plot axis_limits draw self ions x y verbose = mktable_plot.Fail e).
Proof.
  split; [|split; [|split]].
  - intros Ht. unfold mktable_plot.plot. now rewrite Ht.
  - reflexivity.
  - intros ids e Ht Hids Hmap. split.
    + unfold mktable_plot.plot.
      destruct (mktable_plot.table self); [now contradiction Ht|].
      rewrite Hids. simpl. now rewrite Hmap.
    + now apply plot_facts.map_outcome_done_inv.
  - intros ids names e Ht Hids Hmap Hcols. unfold mktable_plot.plot.
    destruct (mktable_plot.table self); [now contradiction Ht|].
    rewrite Hids. simpl. rewrite Hmap. simpl. now rewrite Hcols.
Qed.

Lemma plot_check_order_witness :
  mktable_plot.plot (fun _ _ _ _ => mktable_plot.Done tt)
    (fun _ _ _ _ _ _ _ _ _ _ => mktable_plot.Done tt)
    (mktable_plot.carbon_table "default:geant4_11_3_0")
    (Some [inl "C"; inl "Xx"]) "LET" "z_bar" false
  = mktable_plot.Fail (mktable_plot.CollaboratorError "Xx").
Proof.
  apply (proj1 (proj2 (proj2 (plot_check_order unit unit
           (fun _ _ _ _ => mktable_plot.Done tt)
           (fun _ _ _ _ _ _ _ _ _ _ => mktable_plot.Done tt)
           (mktable_plot.carbon_table "default:geant4_11_3_0")
           (Some [inl "C"; inl "Xx"]) "LET" "z_bar" false)))
           [inl "C"; inl "Xx"] (mktable_plot.CollaboratorError "Xx")).
  - discriminate.
  - reflexivity.
  - reflexivity.
Defined.
